(** * tech-roadmap backend: entity store, dependency resolver, time aggregator

    A shallow embedding of [backend/app] (models.py, schemas.py, constants.py,
    crud.py and the routes that call it) together with the properties the
    specification states about it.

    Conventions of the embedding.
    - A table is a finite map from its primary key to its row, so a row
      record has no [id] field: the key is the id.  An ORM object is the
      pair of its key and its row.
    - An [async] function of crud.py that takes the session [db] is a
      computation in the monad [M]: it reads and writes the tables and may
      raise.  A request runs inside [get_db], which commits when the route
      returns and rolls back when it raises ([run_request]).
    - Python [int] is [Z]; Python [float] is an IEEE 754 binary64 value,
      modelled by [spec_float] with precision 53.
    - [uuid.uuid4()] and the server clock [func.now()] are inputs of the
      operations that use them; so are [str.lower], the password hash and
      the C library's [pow].
    - Only the primary-key and unique constraints of the schema are modelled;
      foreign keys are not (the user id comes from the access token), nor
      is the [updated_at] bookkeeping column. *)

From Stdlib Require Import ZArith.
From Stdlib Require Import Floats.SpecFloat.
From stdpp Require Import gmap strings list sorting.

Local Open Scope string_scope.
Local Open Scope Z_scope.

(** ** Python numbers *)

Definition float : Type := spec_float.

Definition prec : Z := 53.
Definition emax : Z := 1024.

(** An integer as an exact (not yet rounded) binary value. *)
Definition exact_int (z : Z) : float :=
  match z with
  | Z0 => S754_zero false
  | Zpos m => S754_finite false m 0
  | Zneg m => S754_finite true m 0
  end.

(** [float(z)]: the nearest binary64 value. *)
Definition float_of_int (z : Z) : float := binary_normalize prec emax z 0 false.

(** [a / b] on two ints: the correctly rounded quotient.  ([b] is never 0
    at the call sites, and the quotients there are far below the overflow
    threshold, where Python raises instead.) *)
Definition truediv (a b : Z) : float :=
  SFdiv prec emax (exact_int a) (exact_int b).

(** Nearest integer to [n / d] for [0 < d], ties to the even one. *)
Definition round_half_even (n d : Z) : Z :=
  let q := n / d in
  let r := n mod d in
  if 2 * r <? d then q
  else if d <? 2 * r then q + 1
  else if Z.even q then q
  else q + 1.

(** [round(x, 1)]: CPython rounds the exact binary value of [x] to one
    digit after the point (ties to even), and returns the binary64 value
    nearest to that decimal; the sign of [x] is kept. *)
Definition py_round_1 (x : float) : float :=
  match x with
  | S754_finite s m e =>
      let tenths :=
        if 0 <=? e then 10 * Zpos m * 2 ^ e
        else round_half_even (10 * Zpos m) (2 ^ (- e)) in
      SFdiv prec emax
        (match tenths with
         | Zpos t => S754_finite s t 0
         | _ => S754_zero s
         end)
        (exact_int 10)
  | _ => x
  end.

Definition float_1_5 : float := S754_finite false 6755399441055744 (-52).

(** ** models.py *)

Inductive ProjectStatus : Set := LOCKED | UNLOCKED | IN_PROGRESS | DONE.

Inductive Priority : Set := LOW | MEDIUM | HIGH.

Inductive SessionType : Set := FOCUS | POMODORO | MANUAL.

#[global] Instance ProjectStatus_eq_dec : EqDecision ProjectStatus.
Proof. solve_decision. Defined.

(** [ProjectStatus(s)]: the member whose value is [s]; [None] stands for
    the [ValueError] of the enum constructor. *)
Definition ProjectStatus_of_string (s : string) : option ProjectStatus :=
  if decide (s = "locked") then Some LOCKED
  else if decide (s = "unlocked") then Some UNLOCKED
  else if decide (s = "in_progress") then Some IN_PROGRESS
  else if decide (s = "done") then Some DONE
  else None.

Record Coordinates : Type := { x : float; y : float }.

Record SubTask : Type := { subtask_id : string; text : string; isCompleted : bool }.

Record Resource : Type := { resource_id : string; label : string; url : string }.

Module User.
Record t : Type := mk {
  email : string;
  username : string;
  hashed_password : string;
  created_at : Z
}.
End User.

(** [is_public], [avatar_url], [banner_url] and [cv_config] are the columns
    that migration 0002 adds to [user_profiles] (with its three [show_*]
    flags, which nothing reads); the JSON blob is kept serialized. *)
Module UserProfile.
Record t : Type := mk {
  user_id : string;
  xp : Z;
  level : Z;
  unlocked_badges : list string;
  avatar_url : option string;
  banner_url : option string;
  is_public : bool;
  cv_config : option string
}.

Definition set_xp (v : Z) (p : t) : t :=
  mk (user_id p) v (level p) (unlocked_badges p) (avatar_url p) (banner_url p)
     (is_public p) (cv_config p).
End UserProfile.

Module Project.
Record t : Type := mk {
  user_id : string;
  title : string;
  level : Z;
  status : ProjectStatus;
  category : string;
  description : string;
  position : Coordinates;
  dependencies : list string;
  tech_stack : list string;
  checklist : list SubTask;
  resources : list Resource;
  complexity : option Z;
  priority : option Priority;
  github_url : option string;
  notes : option string;
  time_spent_hours : float;
  created_at : Z;
  completed_at : option string
}.

Definition set_status (v : ProjectStatus) (p : t) : t :=
  mk (user_id p) (title p) (level p) v (category p) (description p)
     (position p) (dependencies p) (tech_stack p) (checklist p) (resources p)
     (complexity p) (priority p) (github_url p) (notes p)
     (time_spent_hours p) (created_at p) (completed_at p).

Definition set_dependencies (v : list string) (p : t) : t :=
  mk (user_id p) (title p) (level p) (status p) (category p) (description p)
     (position p) v (tech_stack p) (checklist p) (resources p)
     (complexity p) (priority p) (github_url p) (notes p)
     (time_spent_hours p) (created_at p) (completed_at p).

Definition set_time_spent_hours (v : float) (p : t) : t :=
  mk (user_id p) (title p) (level p) (status p) (category p) (description p)
     (position p) (dependencies p) (tech_stack p) (checklist p) (resources p)
     (complexity p) (priority p) (github_url p) (notes p)
     v (created_at p) (completed_at p).
End Project.

Module WorkSession.
Record t : Type := mk {
  project_id : string;
  start_time : Z;
  end_time : option Z;
  duration_seconds : Z;
  type : SessionType;
  notes : option string;
  task_id : option string
}.
End WorkSession.

(** ** The database: four tables keyed by their primary key *)

Record Db : Type := mkDb {
  users : gmap string User.t;
  user_profiles : gmap string UserProfile.t;
  projects : gmap string Project.t;
  work_sessions : gmap string WorkSession.t
}.

Definition empty_db : Db := mkDb ∅ ∅ ∅ ∅.

Definition set_users (f : gmap string User.t → gmap string User.t) (db : Db) : Db :=
  mkDb (f (users db)) (user_profiles db) (projects db) (work_sessions db).

Definition set_user_profiles
    (f : gmap string UserProfile.t → gmap string UserProfile.t) (db : Db) : Db :=
  mkDb (users db) (f (user_profiles db)) (projects db) (work_sessions db).

Definition set_projects
    (f : gmap string Project.t → gmap string Project.t) (db : Db) : Db :=
  mkDb (users db) (user_profiles db) (f (projects db)) (work_sessions db).

Definition set_work_sessions
    (f : gmap string WorkSession.t → gmap string WorkSession.t) (db : Db) : Db :=
  mkDb (users db) (user_profiles db) (projects db) (f (work_sessions db)).

(** ** Computations over the session *)

Inductive Exn : Type :=
| HTTPException (status_code : Z) (detail : string)
| RequestValidationError
| IntegrityError
| MultipleResultsFound
| ValueError.

Definition M (A : Type) : Type := Db → Exn + A * Db.

#[global] Instance M_ret : MRet M := λ A a db, inr (a, db).

#[global] Instance M_bind : MBind M := λ A B f m db,
  match m db with
  | inl e => inl e
  | inr (a, db') => f a db'
  end.

Definition raise {A : Type} (e : Exn) : M A := λ _, inl e.

Definition query {A : Type} (f : Db → A) : M A := λ db, inr (f db, db).

Definition modify (f : Db → Db) : M () := λ db, inr ((), f db).

(** [for a in l: body(a)] *)
Fixpoint for_each {A : Type} (l : list A) (body : A → M ()) : M () :=
  match l with
  | [] => mret ()
  | a :: l' => body a ;; for_each l' body
  end.

(** [await db.flush()].  The constraints of the schema are checked where
    the row is added; no function touches the store between an [add] and
    the [flush] that follows it. *)
Definition flush : M () := mret ().

(** What [get_db] does around a route: commit on return, rollback and
    re-raise on an exception. *)
Definition run_request {A : Type} (route : M A) (db : Db) : (Exn + A) * Db :=
  match route db with
  | inl e => (inl e, db)
  | inr (a, db') => (inr a, db')
  end.

(** [result.scalar_one_or_none()] *)
Definition scalar_one_or_none {A : Type} (rows : list A) : M (option A) :=
  match rows with
  | [] => mret None
  | [r] => mret (Some r)
  | _ => raise MultipleResultsFound
  end.

(** ** crud.py: projects *)

(** [ORDER BY projects.level, projects.created_at] *)
Definition by_level_created_at (a b : string * Project.t) : Prop :=
  Project.level a.2 < Project.level b.2
  ∨ (Project.level a.2 = Project.level b.2
     ∧ Project.created_at a.2 ≤ Project.created_at b.2).

#[global] Instance by_level_created_at_dec : RelDecision by_level_created_at.
Proof. intros a b. unfold by_level_created_at. apply _. Defined.

(** The rows a [select(Project).where(Project.user_id == user_id)] sees. *)
Definition projects_of (user_id : string) (db : Db) : list (string * Project.t) :=
  filter (λ r, Project.user_id r.2 = user_id) (map_to_list (projects db)).

(** The relationship [Project.sessions], as [selectinload] fetches it. *)
Definition sessions_of (project_id : string) (db : Db)
    : list (string * WorkSession.t) :=
  filter (λ r, WorkSession.project_id r.2 = project_id)
         (map_to_list (work_sessions db)).

Definition get_projects_by_user (user_id : string)
    : M (list (string * Project.t)) :=
  query (λ db, merge_sort by_level_created_at (projects_of user_id db)).

(** [select(Project).where(Project.id == project_id, Project.user_id == user_id)]
    with the sessions loaded; the id is the primary key, so at most one
    row matches. *)
Definition get_project_by_id (project_id user_id : string)
    : M (option (Project.t * list (string * WorkSession.t))) :=
  query (λ db,
    match projects db !! project_id with
    | Some project =>
        if decide (Project.user_id project = user_id)
        then Some (project, sessions_of project_id db)
        else None
    | None => None
    end).

(** Attribute assignments on a loaded project: the unit of work writes
    them to the row with that primary key. *)
Definition assign_status (id : string) (v : ProjectStatus) : M () :=
  modify (set_projects (alter (Project.set_status v) id)).

Definition assign_dependencies (id : string) (v : list string) : M () :=
  modify (set_projects (alter (Project.set_dependencies v) id)).

Definition assign_time_spent_hours (id : string) (v : float) : M () :=
  modify (set_projects (alter (Project.set_time_spent_hours v) id)).

(** [{p.id for p in projects if p.status == ProjectStatus.DONE}] *)
Definition completed_ids_of (projects : list (string * Project.t)) : gset string :=
  list_to_set (filter (λ r, Project.status r.2 = DONE) projects).*1.

(** [all(dep_id in completed_ids for dep_id in project.dependencies)] *)
Definition all_deps_met (completed_ids : gset string) (project : Project.t) : bool :=
  forallb (λ dep_id, bool_decide (dep_id ∈ completed_ids))
          (Project.dependencies project).

(** Every loaded project is visited once, and an iteration writes only the
    row of the project it visits: what it reads of [project] is the state
    of that row when the iteration starts. *)
Definition check_project_dependencies (user_id : string) : M () :=
  projects ← get_projects_by_user user_id;
  let completed_ids := completed_ids_of projects in
  for_each projects (λ '(id, project),
    if bool_decide (Project.status project ∈ [DONE; IN_PROGRESS]) then
      mret ()
    else
      let all_deps_met := all_deps_met completed_ids project in
      if all_deps_met && bool_decide (Project.status project = LOCKED) then
        assign_status id UNLOCKED
      else if negb all_deps_met && bool_decide (Project.status project = UNLOCKED) then
        assign_status id LOCKED
      else
        mret ()) ;;
  flush.

(** ** schemas.py: request bodies *)

Module ProjectCreate.
Record t : Type := mk {
  title : string;
  level : Z;
  category : string;
  description : string;
  position : Coordinates;
  dependencies : list string;
  tech_stack : list string;
  complexity : option Z;
  priority : option Priority;
  id : option string
}.
End ProjectCreate.

(** [ProjectUpdate], as [model_dump(exclude_unset=True)] presents it: a
    field is [None] when the request did not set it.  A nullable column
    can also be set to null, hence the nested option.  A request that sets
    a non-nullable attribute to null is outside this type. *)
Module ProjectUpdate.
Record t : Type := mk {
  title : option string;
  level : option Z;
  status : option ProjectStatus;
  category : option string;
  description : option string;
  position : option Coordinates;
  dependencies : option (list string);
  tech_stack : option (list string);
  complexity : option (option Z);
  priority : option (option Priority);
  checklist : option (list SubTask);
  resources : option (list Resource);
  github_url : option (option string);
  notes : option (option string);
  time_spent_hours : option float;
  completed_at : option (option string)
}.

(** [update_data["time_spent_hours"] = v] *)
Definition set_time_spent_hours (v : float) (u : t) : t :=
  mk (title u) (level u) (status u) (category u) (description u) (position u)
     (dependencies u) (tech_stack u) (complexity u) (priority u) (checklist u)
     (resources u) (github_url u) (notes u) (Some v) (completed_at u).

(** [for field, value in update_data.items(): setattr(project, field, value)] *)
Definition setattrs (u : t) (p : Project.t) : Project.t :=
  Project.mk
    (Project.user_id p)
    (default (Project.title p) (title u))
    (default (Project.level p) (level u))
    (default (Project.status p) (status u))
    (default (Project.category p) (category u))
    (default (Project.description p) (description u))
    (default (Project.position p) (position u))
    (default (Project.dependencies p) (dependencies u))
    (default (Project.tech_stack p) (tech_stack u))
    (default (Project.checklist p) (checklist u))
    (default (Project.resources p) (resources u))
    (default (Project.complexity p) (complexity u))
    (default (Project.priority p) (priority u))
    (default (Project.github_url p) (github_url u))
    (default (Project.notes p) (notes u))
    (default (Project.time_spent_hours p) (time_spent_hours u))
    (Project.created_at p)
    (default (Project.completed_at p) (completed_at u)).
End ProjectUpdate.

Module WorkSessionCreate.
Record t : Type := mk {
  start_time : Z;
  end_time : option Z;
  duration_seconds : Z;
  type : SessionType;
  notes : option string;
  task_id : option string
}.
End WorkSessionCreate.

Module UserCreate.
Record t : Type := mk {
  email : string;
  username : string;
  password : string
}.
End UserCreate.

(** [UserProfileUpdate], as [model_dump(exclude_unset=True)] presents it;
    [validate] is [None] when pydantic rejects the body ([xp] has [ge=0],
    [level] has [ge=1]).  None of the three columns is nullable. *)
Module UserProfileUpdate.
Record t : Type := mk {
  xp : option Z;
  level : option Z;
  unlocked_badges : option (list string)
}.

Definition validate (body : t) : option t :=
  if from_option (λ v, 0 <=? v) true (xp body)
     && from_option (λ v, 1 <=? v) true (level body)
  then Some body else None.

(** [for field, value in update_data.items(): setattr(profile, field, value)] *)
Definition setattrs (u : t) (p : UserProfile.t) : UserProfile.t :=
  UserProfile.mk
    (UserProfile.user_id p)
    (default (UserProfile.xp p) (xp u))
    (default (UserProfile.level p) (level u))
    (default (UserProfile.unlocked_badges p) (unlocked_badges u))
    (UserProfile.avatar_url p)
    (UserProfile.banner_url p)
    (UserProfile.is_public p)
    (UserProfile.cv_config p).
End UserProfileUpdate.

(** [amount: int = Field(ge=0)]: [validate] is [None] when pydantic
    rejects the body. *)
Module AddXPRequest.
Record t : Type := mk { amount : Z }.

Definition validate (amount : Z) : option t :=
  if 0 <=? amount then Some (mk amount) else None.
End AddXPRequest.

Module UserStats.
Record t : Type := mk {
  xp : Z;
  level : Z;
  completed_projects : Z;
  total_projects : Z;
  rank_title : string;
  next_level_xp : Z;
  current_level_xp : Z
}.
End UserStats.

Record Token : Type := { access_token : string; token_type : string }.

(** ** crud.py: projects, continued *)

(** [db.add(project)]: the insert fails on a primary key already present. *)
Definition add_project (id : string) (project : Project.t) : M () :=
  λ db,
    match projects db !! id with
    | Some _ => inl IntegrityError
    | None => inr ((), set_projects (insert id project) db)
    end.

Definition add_session (id : string) (session : WorkSession.t) : M () :=
  λ db,
    match work_sessions db !! id with
    | Some _ => inl IntegrityError
    | None => inr ((), set_work_sessions (insert id session) db)
    end.

(** [await db.delete(project)], with the cascade on [Project.sessions]. *)
Definition delete_row (project_id : string) : M () :=
  modify (λ db,
    set_work_sessions
      (filter (λ r, WorkSession.project_id r.2 ≠ project_id))
      (set_projects (delete project_id) db)).

(** The state of a loaded object when the function returns it: later
    writes to its row (by the resolver) are writes to the same object. *)
Definition loaded (id : string) (project : Project.t) : M Project.t :=
  query (λ db, default project (projects db !! id)).

(** [project_data.id or f"custom_{generate_id()[:8]}"] *)
Definition new_project_id (id : option string) (uuid : string) : string :=
  match id with
  | Some s => if decide (s = "") then "custom_" +:+ String.substring 0 8 uuid else s
  | None => "custom_" +:+ String.substring 0 8 uuid
  end.

Definition create_project (user_id : string) (project_data : ProjectCreate.t)
    (uuid : string) (now : Z) : M (string * Project.t) :=
  let project_id := new_project_id (ProjectCreate.id project_data) uuid in
  let project := Project.mk
    user_id
    (ProjectCreate.title project_data)
    (ProjectCreate.level project_data)
    LOCKED
    (ProjectCreate.category project_data)
    (ProjectCreate.description project_data)
    (ProjectCreate.position project_data)
    (ProjectCreate.dependencies project_data)
    (ProjectCreate.tech_stack project_data)
    []
    []
    (ProjectCreate.complexity project_data)
    (Some (default MEDIUM (ProjectCreate.priority project_data)))
    None
    None
    (S754_zero false)
    now
    None in
  add_project project_id project ;;
  flush ;;
  check_project_dependencies user_id ;;
  project ← loaded project_id project;
  mret (project_id, project).

Definition sum_duration_seconds (sessions : list (string * WorkSession.t)) : Z :=
  foldr Z.add 0 (WorkSession.duration_seconds ∘ snd <$> sessions).

(** The [model_dump] calls on [position], [checklist] and [resources]
    change how the values are represented, not the values. *)
Definition update_project (project_id user_id : string)
    (project_data : ProjectUpdate.t) : M (option Project.t) :=
  found ← get_project_by_id project_id user_id;
  match found with
  | None => mret None
  | Some (project, sessions) =>
      let update_data := project_data in
      let update_data :=
        if bool_decide (sessions ≠ []) then
          let total_seconds := sum_duration_seconds sessions in
          ProjectUpdate.set_time_spent_hours
            (py_round_1 (truediv total_seconds 3600)) update_data
        else update_data in
      modify (set_projects (alter (ProjectUpdate.setattrs update_data) project_id)) ;;
      flush ;;
      check_project_dependencies user_id ;;
      project ← loaded project_id project;
      mret (Some project)
  end.

(** [update(Project).where(Project.user_id == user_id)
      .values(dependencies=Project.dependencies)] *)
Definition rewrite_dependencies (user_id : string) : M () :=
  modify (set_projects (fmap (λ p,
    if decide (Project.user_id p = user_id)
    then Project.set_dependencies (Project.dependencies p) p
    else p))).

Definition delete_project (project_id user_id : string) : M bool :=
  found ← get_project_by_id project_id user_id;
  match found with
  | None => mret false
  | Some _ =>
      rewrite_dependencies user_id ;;
      all_projects ← get_projects_by_user user_id;
      for_each all_projects (λ '(id, p),
        if bool_decide (project_id ∈ Project.dependencies p) then
          assign_dependencies id
            (filter (λ d, d ≠ project_id) (Project.dependencies p))
        else mret ()) ;;
      delete_row project_id ;;
      flush ;;
      check_project_dependencies user_id ;;
      mret true
  end.

(** ** crud.py: work sessions *)

Definition add_session_to_project (project_id user_id : string)
    (session_data : WorkSessionCreate.t) (uuid : string)
    : M (option (string * WorkSession.t)) :=
  found ← get_project_by_id project_id user_id;
  match found with
  | None => mret None
  | Some (project, sessions) =>
      let session := WorkSession.mk
        project_id
        (WorkSessionCreate.start_time session_data)
        (WorkSessionCreate.end_time session_data)
        (WorkSessionCreate.duration_seconds session_data)
        (WorkSessionCreate.type session_data)
        (WorkSessionCreate.notes session_data)
        (WorkSessionCreate.task_id session_data) in
      add_session uuid session ;;
      flush ;;
      let total_seconds :=
        sum_duration_seconds sessions
        + WorkSessionCreate.duration_seconds session_data in
      assign_time_spent_hours project_id (py_round_1 (truediv total_seconds 3600)) ;;
      flush ;;
      mret (Some (uuid, session))
  end.

(** [ORDER BY work_sessions.start_time DESC] *)
Definition by_start_time_desc (a b : string * WorkSession.t) : Prop :=
  WorkSession.start_time b.2 ≤ WorkSession.start_time a.2.

#[global] Instance by_start_time_desc_dec : RelDecision by_start_time_desc.
Proof. intros a b. unfold by_start_time_desc. apply _. Defined.

Definition get_sessions_by_project (project_id user_id : string)
    : M (list (string * WorkSession.t)) :=
  found ← get_project_by_id project_id user_id;
  match found with
  | None => mret []
  | Some _ =>
      query (λ db, merge_sort by_start_time_desc (sessions_of project_id db))
  end.

(** ** crud.py: users and profiles *)

Section Accounts.

(** [str.lower] and [app.core.security.get_password_hash]. *)
Variable str_lower : string → string.
Variable get_password_hash : string → string.

Definition get_user_by_id (user_id : string) : M (option (string * User.t)) :=
  query (λ db, (λ u, (user_id, u)) <$> users db !! user_id).

Definition get_user_by_email (email : string) : M (option (string * User.t)) :=
  rows ← query (λ db,
    filter (λ r, User.email r.2 = str_lower email) (map_to_list (users db)));
  scalar_one_or_none rows.

Definition get_user_by_username (username : string) : M (option (string * User.t)) :=
  rows ← query (λ db,
    filter (λ r, User.username r.2 = str_lower username) (map_to_list (users db)));
  scalar_one_or_none rows.

(** [app.core.security.verify_password], taken as a total function of the
    password and the stored hash. *)
Variable verify_password : string → string → bool.

Definition authenticate_user (username password : string)
    : M (option (string * User.t)) :=
  user ← get_user_by_username username;
  user ← (if bool_decide (is_Some user) then mret user
          else get_user_by_email username);
  match user with
  | None => mret None
  | Some (id, user) =>
      if negb (verify_password password (User.hashed_password user))
      then mret None
      else mret (Some (id, user))
  end.

(** [db.add(user)]: primary key, and the unique [email] and [username]. *)
Definition add_user (id : string) (user : User.t) : M () :=
  λ db,
    if bool_decide (users db !! id = None
                    ∧ Forall (λ r, User.email r.2 ≠ User.email user
                                   ∧ User.username r.2 ≠ User.username user)
                             (map_to_list (users db)))
    then inr ((), set_users (insert id user) db)
    else inl IntegrityError.

(** [db.add(profile)]: primary key, and the unique [user_id]. *)
Definition add_profile (id : string) (profile : UserProfile.t) : M () :=
  λ db,
    if bool_decide (user_profiles db !! id = None
                    ∧ Forall (λ r, UserProfile.user_id r.2 ≠ UserProfile.user_id profile)
                             (map_to_list (user_profiles db)))
    then inr ((), set_user_profiles (insert id profile) db)
    else inl IntegrityError.

(** The columns of migration 0002 take their server defaults. *)
Definition create_user (user_data : UserCreate.t) (uuid1 uuid2 : string) (now : Z)
    : M (string * User.t) :=
  let user_id := uuid1 in
  let profile_id := uuid2 in
  let user := User.mk
    (str_lower (UserCreate.email user_data))
    (str_lower (UserCreate.username user_data))
    (get_password_hash (UserCreate.password user_data))
    now in
  let profile := UserProfile.mk user_id 0 1 [] None None false None in
  add_user user_id user ;;
  add_profile profile_id profile ;;
  flush ;;
  mret (user_id, user).

Definition get_profile_by_user_id (user_id : string)
    : M (option (string * UserProfile.t)) :=
  rows ← query (λ db,
    filter (λ r, UserProfile.user_id r.2 = user_id) (map_to_list (user_profiles db)));
  scalar_one_or_none rows.

Definition update_profile (user_id : string) (profile_data : UserProfileUpdate.t)
    : M (option UserProfile.t) :=
  found ← get_profile_by_user_id user_id;
  match found with
  | None => mret None
  | Some (id, profile) =>
      let update_data := profile_data in
      modify (set_user_profiles
                (alter (UserProfileUpdate.setattrs update_data) id)) ;;
      flush ;;
      mret (Some (UserProfileUpdate.setattrs update_data profile))
  end.

Definition add_xp (user_id : string) (amount : Z) : M (option UserProfile.t) :=
  found ← get_profile_by_user_id user_id;
  match found with
  | None => mret None
  | Some (id, profile) =>
      let xp := UserProfile.xp profile + amount in
      modify (set_user_profiles (alter (UserProfile.set_xp xp) id)) ;;
      flush ;;
      mret (Some (UserProfile.set_xp xp profile))
  end.

(** Modelled from the spec: [crud.get_public_profile_by_username], which
    routes/users.py calls and crud.py does not define.  Section 6: the
    user and the profile are returned only if the profile's visibility flag
    is public; a private profile gives the same result as a username that
    does not exist.  The username is looked up as every other lookup by
    username is, through [get_user_by_username]. *)
Definition get_public_profile_by_username (username : string)
    : M (option (User.t * UserProfile.t)) :=
  found ← get_user_by_username username;
  match found with
  | None => mret None
  | Some (user_id, user) =>
      found ← get_profile_by_user_id user_id;
      match found with
      | None => mret None
      | Some (_, profile) =>
          if UserProfile.is_public profile then mret (Some (user, profile))
          else mret None
      end
  end.

End Accounts.

(** ** constants.py and the seeding of a new user *)

Module Seed.
Record t : Type := mk {
  id : string;
  title : string;
  level : Z;
  status : string;
  category : string;
  position : Z * Z;
  dependencies : list string;
  description : string;
  tech_stack : list string;
  time_spent_hours : option Z;
  complexity : option Z;
  notes : option string
}.
End Seed.

Definition nl : string := String (Ascii.ascii_of_nat 10) EmptyString.

Definition INITIAL_DATASET : list Seed.t := [
  Seed.mk "p1_1" "Network Packet Analyzer" 1 "done" "Network" (100, 100) []
    "Create a Wireshark-lite in Python using raw sockets."
    ["Python"; "Scapy"] (Some 12) (Some 2)
    (Some ("## Key Learnings" +:+ nl
           +:+ "- Understanding OSI Layer 2 vs Layer 3" +:+ nl
           +:+ "- Raw socket manipulation in Linux requires root privileges."));
  Seed.mk "p1_2" "Custom DHCP Server" 1 "unlocked" "Network" (350, 100) ["p1_1"]
    "Understand low-level IP assignment and DORA process."
    ["Python"; "Sockets"] None (Some 3) None;
  Seed.mk "p1_3" "Subnet Calculator" 1 "locked" "Network" (600, 100) ["p1_2"]
    "VLSM and IPAM calculation tool."
    ["Flask"; "Bootstrap"] None (Some 1) None;
  Seed.mk "p2_1" "Homelab Infra" 2 "locked" "Infra" (100, 300) ["p1_1"]
    "The heart of your personal infrastructure."
    ["Docker"; "Ansible"; "Pi"] None (Some 3) None;
  Seed.mk "p2_2" "AWS 3-Tier App" 2 "locked" "Cloud" (350, 300) ["p2_1"]
    "Clean Cloud deployment via Terraform (IaC)."
    ["AWS"; "Terraform"] None (Some 3) None;
  Seed.mk "p2_3" "K8s Prod Cluster" 2 "locked" "Cloud" (600, 300) ["p2_1"; "p2_2"]
    "Advanced orchestration and GitOps implementation."
    ["Kubernetes"; "ArgoCD"] None (Some 5) None;
  Seed.mk "p2_4" "SOC-in-a-Box" 2 "locked" "Security" (850, 300) ["p2_1"]
    "Security monitoring and threat detection."
    ["ELK"; "Wazuh"] None (Some 4) None;
  Seed.mk "p3_1" "Multi-Cloud K8s" 3 "locked" "Cloud" (350, 500) ["p2_3"]
    "Cluster federation and service mesh."
    ["Rancher"; "Istio"] None (Some 5) None;
  Seed.mk "p3_2" "Zero Trust Network" 3 "locked" "Security" (600, 500) ["p2_4"]
    "Modern security architecture without classic VPNs."
    ["BeyondCorp"; "WireGuard"] None (Some 4) None;
  Seed.mk "p4_1" "Smart Factory (Capstone)" 4 "locked" "Expert" (475, 700)
    ["p3_1"; "p3_2"]
    "The Final Boss: IT + OT Convergence."
    ["NSX-T"; "IoT"; "5G"] None (Some 5) None
].

(** The [Project(...)] that [seed_initial_projects] builds from one entry
    of the catalog; [priority] is not passed and takes the column default. *)
Definition seed_project (user_id : string) (now : Z) (project_data : Seed.t)
    (status : ProjectStatus) : Project.t :=
  Project.mk
    user_id
    (Seed.title project_data)
    (Seed.level project_data)
    status
    (Seed.category project_data)
    (Seed.description project_data)
    {| x := float_of_int (Seed.position project_data).1;
       y := float_of_int (Seed.position project_data).2 |}
    (Seed.dependencies project_data)
    (Seed.tech_stack project_data)
    []
    []
    (Seed.complexity project_data)
    (Some MEDIUM)
    None
    (Seed.notes project_data)
    (float_of_int (default 0 (Seed.time_spent_hours project_data)))
    now
    None.

(** The loop of [seed_initial_projects] over a catalog, returning the
    list [projects] it appends to. *)
Fixpoint seed_projects (dataset : list Seed.t) (user_id : string) (now : Z)
    : M (list (string * Project.t)) :=
  match dataset with
  | [] => mret []
  | project_data :: dataset' =>
      match ProjectStatus_of_string (Seed.status project_data) with
      | None => raise ValueError
      | Some status =>
          let project := seed_project user_id now project_data status in
          add_project (Seed.id project_data) project ;;
          projects ← seed_projects dataset' user_id now;
          mret ((Seed.id project_data, project) :: projects)
      end
  end.

Definition seed_initial_projects (user_id : string) (now : Z)
    : M (list (string * Project.t)) :=
  projects ← seed_projects INITIAL_DATASET user_id now;
  flush ;;
  mret projects.

(** ** constants.py: ranks *)

Module Rank.
Record t : Type := mk {
  id : string;
  title : string;
  min_xp : Z;
  icon : string;
  color : string
}.
End Rank.

Definition RANKS : list Rank.t := [
  Rank.mk "novice" "Script Kiddie" 0 "Star" "text-slate-500";
  Rank.mk "apprentice" "Code Monkey" 1000 "Award" "text-emerald-500";
  Rank.mk "journeyman" "Full Stack Dev" 3000 "Zap" "text-ocean-500";
  Rank.mk "expert" "Tech Lead" 8000 "Medal" "text-purple-500";
  Rank.mk "master" "SysAdmin Wizard" 15000 "Crown" "text-amber-500";
  Rank.mk "legend" "10x Engineer" 30000 "Trophy" "text-red-500"
].

(** The loop of [get_rank_for_xp] over a table, from [current_rank]. *)
Definition rank_loop (xp : Z) (current_rank : Rank.t) (ranks : list Rank.t)
    : Rank.t :=
  foldl (λ current_rank rank,
           if Rank.min_xp rank <=? xp then rank else current_rank)
        current_rank ranks.

(** [current_rank = RANKS[0]], then the loop; the table is not empty. *)
Definition get_rank_for_xp (xp : Z) : Rank.t :=
  match RANKS with
  | current_rank :: _ => rank_loop xp current_rank RANKS
  | [] => Rank.mk "" "" 0 "" ""
  end.

(** ** constants.py: the level curve *)

(** [int(x)] on a float: truncation toward zero; [None] where Python
    raises (infinities and NaN). *)
Definition int_of_float (x : float) : option Z :=
  match x with
  | S754_zero _ => Some 0
  | S754_finite s m e =>
      let n := if 0 <=? e then Zpos m * 2 ^ e else Zpos m / 2 ^ (- e) in
      Some (if s then - n else n)
  | _ => None
  end.

Section LevelCurve.

(** [x ** y] on floats is the [pow] of the C library, which neither the
    language nor IEEE 754 pins down to the last bit. *)
Variable pow : float → float → float.

(** [int(100 * (level ** 1.5))] *)
Definition get_next_level_xp (level : Z) : option Z :=
  int_of_float
    (SFmul prec emax (float_of_int 100)
       (pow (float_of_int level) float_1_5)).

End LevelCurve.

(** ** routes *)

Definition HTTP_404_NOT_FOUND : Z := 404.
Definition HTTP_400_BAD_REQUEST : Z := 400.
Definition HTTP_401_UNAUTHORIZED : Z := 401.

Module routes_projects.

Definition get_projects (user_id : string) : M (list (string * Project.t)) :=
  projects ← get_projects_by_user user_id;
  mret projects.

Definition get_project (project_id user_id : string) : M Project.t :=
  project ← get_project_by_id project_id user_id;
  match project with
  | None => raise (HTTPException HTTP_404_NOT_FOUND "Project not found")
  | Some (project, _) => mret project
  end.

Definition create_project (project_data : ProjectCreate.t) (user_id uuid : string)
    (now : Z) : M (string * Project.t) :=
  project ← create_project user_id project_data uuid now;
  mret project.

Definition update_project (project_id : string) (project_data : ProjectUpdate.t)
    (user_id : string) : M Project.t :=
  project ← update_project project_id user_id project_data;
  match project with
  | None => raise (HTTPException HTTP_404_NOT_FOUND "Project not found")
  | Some project => mret project
  end.

Definition delete_project (project_id user_id : string) : M string :=
  success ← delete_project project_id user_id;
  if success : bool then mret "Project deleted successfully"
  else raise (HTTPException HTTP_404_NOT_FOUND "Project not found").

Definition add_session (project_id : string) (session_data : WorkSessionCreate.t)
    (user_id uuid : string) : M (string * WorkSession.t) :=
  session ← add_session_to_project project_id user_id session_data uuid;
  match session with
  | None => raise (HTTPException HTTP_404_NOT_FOUND "Project not found")
  | Some session => mret session
  end.

Definition get_sessions (project_id user_id : string)
    : M (list (string * WorkSession.t)) :=
  sessions ← get_sessions_by_project project_id user_id;
  mret sessions.

End routes_projects.

Module routes_profile.

Definition get_profile (user_id : string) : M (string * UserProfile.t) :=
  profile ← get_profile_by_user_id user_id;
  match profile with
  | None => raise (HTTPException HTTP_404_NOT_FOUND "Profile not found")
  | Some profile => mret profile
  end.

(** The body is validated against [UserProfileUpdate] before the route
    runs. *)
Definition update_profile (body : UserProfileUpdate.t) (user_id : string)
    : M UserProfile.t :=
  match UserProfileUpdate.validate body with
  | None => raise RequestValidationError
  | Some profile_data =>
      profile ← update_profile user_id profile_data;
      match profile with
      | None => raise (HTTPException HTTP_404_NOT_FOUND "Profile not found")
      | Some profile => mret profile
      end
  end.

(** The body is validated against [AddXPRequest] before the route runs. *)
Definition add_xp (amount : Z) (user_id : string) : M UserProfile.t :=
  match AddXPRequest.validate amount with
  | None => raise RequestValidationError
  | Some xp_data =>
      profile ← add_xp user_id (AddXPRequest.amount xp_data);
      match profile with
      | None => raise (HTTPException HTTP_404_NOT_FOUND "Profile not found")
      | Some profile => mret profile
      end
  end.

(** [get_next_level_xp(level)] as a call that may raise.  On a negative
    [level] the power [level ** 1.5] is a complex number, which [int]
    rejects; a [level] too large for a float is rejected by the power; and
    [int] rejects an infinite or NaN product.  The exception classes differ
    in Python (and end in the same catch-all handler of main.py); here they
    are all [ValueError]. *)
Definition level_xp (pow : float → float → float) (level : Z) : M Z :=
  if bool_decide (level < 0) then raise ValueError
  else
    match float_of_int level with
    | S754_infinity _ => raise ValueError
    | _ =>
        match get_next_level_xp pow level with
        | Some n => mret n
        | None => raise ValueError
        end
    end.

Definition get_stats (pow : float → float → float) (user_id : string)
    : M UserStats.t :=
  profile ← get_profile_by_user_id user_id;
  match profile with
  | None => raise (HTTPException HTTP_404_NOT_FOUND "Profile not found")
  | Some (_, profile) =>
      projects ← get_projects_by_user user_id;
      let completed :=
        length (filter (λ p, Project.status p.2 = DONE) projects) in
      let total := length projects in
      let rank := get_rank_for_xp (UserProfile.xp profile) in
      next_xp ← level_xp pow (UserProfile.level profile);
      current_level_xp ←
        (if bool_decide (1 < UserProfile.level profile)
         then level_xp pow (UserProfile.level profile - 1)
         else mret 0);
      mret (UserStats.mk
              (UserProfile.xp profile)
              (UserProfile.level profile)
              (Z.of_nat completed)
              (Z.of_nat total)
              (Rank.title rank)
              next_xp
              current_level_xp)
  end.

End routes_profile.

Module routes_auth.

Definition register (str_lower get_password_hash : string → string)
    (user_data : UserCreate.t) (uuid1 uuid2 : string) (now : Z)
    : M (string * User.t) :=
  existing_email ← get_user_by_email str_lower (UserCreate.email user_data);
  if bool_decide (is_Some existing_email) then
    raise (HTTPException HTTP_400_BAD_REQUEST "Email already registered")
  else
    existing_username ←
      get_user_by_username str_lower (UserCreate.username user_data);
    if bool_decide (is_Some existing_username) then
      raise (HTTPException HTTP_400_BAD_REQUEST "Username already taken")
    else
      user ← create_user str_lower get_password_hash user_data uuid1 uuid2 now;
      seed_initial_projects user.1 now ;;
      mret user.

(** [login] and [login_json] have the same body; [create_access_token]
    (which signs the subject with the server's key and clock) is an input. *)
Definition login (str_lower : string → string)
    (verify_password : string → string → bool)
    (create_access_token : string → string) (username password : string)
    : M Token :=
  user ← authenticate_user str_lower verify_password username password;
  match user with
  | None =>
      raise (HTTPException HTTP_401_UNAUTHORIZED "Incorrect username or password")
  | Some (id, _) =>
      let access_token := create_access_token id in
      mret {| access_token := access_token; token_type := "bearer" |}
  end.

Definition get_current_user (user_id : string) : M (string * User.t) :=
  user ← get_user_by_id user_id;
  match user with
  | None => raise (HTTPException HTTP_404_NOT_FOUND "User not found")
  | Some user => mret user
  end.

End routes_auth.

Module routes_users.

Record PublicUser : Type := { pu_username : string; createdAt : Z }.

Record PublicProfile : Type := {
  pp_xp : Z;
  pp_level : Z;
  unlockedBadges : list string;
  avatarUrl : option string;
  bannerUrl : option string;
  cvConfig : option string
}.

Definition get_public_profile (str_lower : string → string) (username : string)
    : M (PublicUser * PublicProfile) :=
  result ← get_public_profile_by_username str_lower username;
  match result with
  | None =>
      raise (HTTPException HTTP_404_NOT_FOUND "User not found or profile is private")
  | Some (user, profile) =>
      mret ({| pu_username := User.username user;
               createdAt := User.created_at user |},
            {| pp_xp := UserProfile.xp profile;
               pp_level := UserProfile.level profile;
               unlockedBadges := UserProfile.unlocked_badges profile;
               avatarUrl := UserProfile.avatar_url profile;
               bannerUrl := UserProfile.banner_url profile;
               cvConfig := UserProfile.cv_config profile |})
  end.

End routes_users.

(** ** Vocabulary of the specification *)

(** [d] is the id of a project of the user whose status is done. *)
Definition done_sibling (db : Db) (user_id d : string) : Prop :=
  ∃ q, projects db !! d = Some q
       ∧ Project.user_id q = user_id ∧ Project.status q = DONE.

#[global] Instance done_sibling_dec db user_id d : Decision (done_sibling db user_id d).
Proof.
  unfold done_sibling.
  destruct (projects db !! d) as [q|]; [|right; intros [? [? _]]; discriminate].
  destruct (decide (Project.user_id q = user_id ∧ Project.status q = DONE)) as [H|H].
  - left. exists q. tauto.
  - right. intros [q' [[= <-] Hq]]. tauto.
Defined.

(** Every id in the dependencies of [p] is a done sibling (section 4.1,
    step 2a); an empty list is met. *)
Definition deps_met (db : Db) (user_id : string) (p : Project.t) : Prop :=
  Forall (done_sibling db user_id) (Project.dependencies p).

(** The row of a project after a resolver pass, in the words of the
    specification. *)
Definition resolve_row (db : Db) (user_id : string) (p : Project.t) : Project.t :=
  if decide (Project.status p = DONE ∨ Project.status p = IN_PROGRESS) then p
  else if decide (deps_met db user_id p) then Project.set_status UNLOCKED p
  else Project.set_status LOCKED p.

(** The row of a project once the id [x] is removed from its dependencies. *)
Definition without_dependency (x : string) (p : Project.t) : Project.t :=
  Project.set_dependencies (filter (λ d, d ≠ x) (Project.dependencies p)) p.

(** The store once project [x] of the user is gone: its id is removed from
    the dependencies of every project of the user, and its row and its
    sessions are deleted. *)
Definition purge_project (x user_id : string) (db : Db) : Db :=
  set_work_sessions
    (filter (λ r, WorkSession.project_id r.2 ≠ x))
    (set_projects
       (λ m, delete x ((λ p, if decide (Project.user_id p = user_id)
                             then without_dependency x p else p) <$> m))
       db).


(** What a route answers for a project that is not found. *)
Definition project_not_found {A : Type} : Exn + A * Db :=
  inl (HTTPException HTTP_404_NOT_FOUND "Project not found").

(** The unique constraints on [users.username] and on
    [user_profiles.user_id], which [add_user] and [add_profile] enforce. *)
Definition unique_usernames (db : Db) : Prop :=
  ∀ i j u v, users db !! i = Some u → users db !! j = Some v →
    User.username u = User.username v → i = j.

Definition unique_profile_user_ids (db : Db) : Prop :=
  ∀ i j p q, user_profiles db !! i = Some p → user_profiles db !! j = Some q →
    UserProfile.user_id p = UserProfile.user_id q → i = j.

(** The body of the public-profile answer for a user and their profile. *)
Definition public_profile_of (user : User.t) (profile : UserProfile.t)
    : routes_users.PublicUser * routes_users.PublicProfile :=
  ({| routes_users.pu_username := User.username user;
      routes_users.createdAt := User.created_at user |},
   {| routes_users.pp_xp := UserProfile.xp profile;
      routes_users.pp_level := UserProfile.level profile;
      routes_users.unlockedBadges := UserProfile.unlocked_badges profile;
      routes_users.avatarUrl := UserProfile.avatar_url profile;
      routes_users.bannerUrl := UserProfile.banner_url profile;
      routes_users.cvConfig := UserProfile.cv_config profile |}).

(** A user with that (case-folded) username exists and their profile is
    public. *)
Definition has_public_profile (str_lower : string → string) (db : Db)
    (username : string) (user : User.t) (profile : UserProfile.t) : Prop :=
  ∃ user_id profile_id,
    users db !! user_id = Some user
    ∧ User.username user = str_lower username
    ∧ user_profiles db !! profile_id = Some profile
    ∧ UserProfile.user_id profile = user_id
    ∧ UserProfile.is_public profile = true.

(** The ids of the seed catalog. *)
Definition catalog_ids : list string := Seed.id <$> INITIAL_DATASET.



(** What [get_next_level_xp] returns at a level where [pow] returns the
    correctly rounded power, that is the binary64 square root of the exact
    cube of the level. *)
Definition curve_at (level : Z) : option Z :=
  int_of_float
    (SFmul prec emax (float_of_int 100)
       (SFsqrt prec emax (exact_int (level ^ 3)))).

(** [n] is [floor (100 * level ^ 1.5)]: the integer square root of
    [10000 * level ^ 3]. *)
Definition is_floor_of_curve (level n : Z) : Prop :=
  0 ≤ n ∧ n * n ≤ 10000 * level ^ 3 < (n + 1) * (n + 1).

Definition curve_ok (level : Z) : bool :=
  match curve_at level with
  | Some n =>
      (0 <=? n) && (n * n <=? 10000 * level ^ 3)
      && (10000 * level ^ 3 <? (n + 1) * (n + 1))
  | None => false
  end.

(** [f 0 && f 1 && ... && f (n - 1)], counting in binary. *)
Definition all_below (n : positive) (f : Z → bool) : bool :=
  (Pos.iter (λ st : Z * bool, (st.1 + 1, st.2 && f st.1)) (0, true) n).2.

(** A [pow] that is correctly rounded at exponent 1.5 on the integers. *)
Definition sample_pow (x y : float) : float :=
  match int_of_float x with
  | Some n => SFsqrt prec emax (exact_int (n ^ 3))
  | None => x
  end.

(** The unique constraint on [users.email]. *)
Definition unique_emails (db : Db) : Prop :=
  ∀ i j u v, users db !! i = Some u → users db !! j = Some v →
    User.email u = User.email v → i = j.

(** The bounds that the request schemas put on a profile. *)
Definition profile_bounds (db : Db) : Prop :=
  ∀ i p, user_profiles db !! i = Some p →
    0 ≤ UserProfile.xp p ∧ 1 ≤ UserProfile.level p.



(** The profile that [create_user] stores for a new user. *)
Definition initial_profile (user_id : string) : UserProfile.t :=
  UserProfile.mk user_id 0 1 [] None None false None.


(** ** Sample stores

    Two users.  [u1] owns a chain [a] (done), [b] (locked, needs [a]), [c]
    (unlocked, needs [b]); [d], which needs [a] and a project of [u2]; [e],
    in progress with a dangling dependency; [f], locked with no dependency;
    and [g], locked, which needs [a] and [b].  Project [a] has two
    sessions. *)

Definition sample_project (user_id : string) (status : ProjectStatus)
    (dependencies : list string) : Project.t :=
  Project.mk user_id "title" 1 status "Network" ""
    {| x := float_of_int 100; y := float_of_int 100 |}
    dependencies [] [] [] None (Some MEDIUM) None None (S754_zero false) 0 None.

Definition sample_session (project_id : string) (duration_seconds : Z)
    : WorkSession.t :=
  WorkSession.mk project_id 0 None duration_seconds MANUAL None None.

Definition sample_db : Db := {|
  users := list_to_map [
    ("u1", User.mk "alice@example.com" "alice" "h1" 0);
    ("u2", User.mk "bob@example.com" "bob" "h2" 0)];
  user_profiles := list_to_map [
    ("pr1", UserProfile.mk "u1" 120 2 ["b_first_step"] None None true None);
    ("pr2", UserProfile.mk "u2" 50 1 [] None None false None)];
  projects := list_to_map [
    ("a", sample_project "u1" DONE []);
    ("b", sample_project "u1" LOCKED ["a"]);
    ("c", sample_project "u1" UNLOCKED ["b"]);
    ("d", sample_project "u1" LOCKED ["a"; "x"]);
    ("e", sample_project "u1" IN_PROGRESS ["nope"]);
    ("f", sample_project "u1" LOCKED []);
    ("g", sample_project "u1" LOCKED ["a"; "b"]);
    ("x", sample_project "u2" DONE [])];
  work_sessions := list_to_map [
    ("s1", sample_session "a" 3600);
    ("s2", sample_session "a" 1800)]
|}.

(** [str.lower] on ASCII text, to instantiate [str_lower] on the sample
    store. *)
Definition ascii_lower_char (c : Ascii.ascii) : Ascii.ascii :=
  let n := Ascii.nat_of_ascii c in
  if ((65 <=? n) && (n <=? 90))%nat then Ascii.ascii_of_nat (n + 32) else c.

Fixpoint ascii_lower (s : string) : string :=
  match s with
  | EmptyString => EmptyString
  | String c s' => String (ascii_lower_char c) (ascii_lower s')
  end.


(** A store with two projects that depend on each other and one that
    depends on itself. *)
Definition cyclic_db : Db :=
  set_projects (λ _, list_to_map [
    ("m", sample_project "u1" LOCKED ["n"]);
    ("n", sample_project "u1" UNLOCKED ["m"]);
    ("s", sample_project "u1" UNLOCKED ["s"])]) empty_db.

(** A password check and hash to instantiate [verify_password] and
    [get_password_hash] on the sample stores. *)
Definition sample_get_password_hash (password : string) : string :=
  "h:" +:+ password.

Definition sample_verify_password (plain_password hashed_password : string)
    : bool :=
  bool_decide (hashed_password = sample_get_password_hash plain_password).

Definition sample_user_create : UserCreate.t :=
  UserCreate.mk "Carol@Example.com" "Carol" "correct horse".


(** * Properties *)

(** ** Running computations *)

Ltac unfold_M :=
  cbv [mbind M_bind mret M_ret query modify flush raise] in *.

(** Closed goals over concrete stores. *)
Ltac by_computation :=
  first
    [ vm_compute; reflexivity
    | vm_compute; exact I
    | let H := fresh in intros H; vm_compute in H; discriminate H ].

Lemma bind_run {A B : Type} (m : M A) (f : A → M B) db a db' :
  m db = inr (a, db') → (m ≫= f) db = f a db'.
Proof. intros H. unfold mbind, M_bind. by rewrite H. Qed.


Lemma bind_inr_inv {A B : Type} (m : M A) (f : A → M B) db b db2 :
  (m ≫= f) db = inr (b, db2) →
  ∃ a db1, m db = inr (a, db1) ∧ f a db1 = inr (b, db2).
Proof.
  unfold mbind, M_bind. destruct (m db) as [e|[a db1]]; [done|]. eauto.
Qed.

(** ** Rows of one user *)

Lemma elem_of_projects_of uid db i p :
  (i, p) ∈ projects_of uid db ↔ projects db !! i = Some p ∧ Project.user_id p = uid.
Proof.
  unfold projects_of. rewrite list_elem_of_filter, elem_of_map_to_list. simpl. tauto.
Qed.

Lemma NoDup_projects_of uid db : NoDup (projects_of uid db).*1.
Proof.
  unfold projects_of.
  eapply sublist_NoDup; [apply (NoDup_fst_map_to_list (projects db))|].
  apply fmap_sublist, sublist_filter.
Qed.

Lemma get_projects_by_user_run uid db :
  ∃ l, get_projects_by_user uid db = inr (l, db)
       ∧ l ≡ₚ projects_of uid db.
Proof.
  eexists. split; [reflexivity|]. apply merge_sort_Permutation.
Qed.

Lemma Db_eq (a b : Db) :
  users a = users b → user_profiles a = user_profiles b →
  projects a = projects b → work_sessions a = work_sessions b → a = b.
Proof. destruct a, b. simpl. by intros -> -> -> ->. Qed.

(** A loop over loaded rows in which each iteration writes at most its own
    row: every row of the list ends as [f] of its loaded state, and
    nothing else changes. *)
Lemma for_each_rows (f : Project.t → Project.t)
    (body : string * Project.t → M ()) (l : list (string * Project.t)) :
  (∀ i p db0, (i, p) ∈ l → projects db0 !! i = Some p →
     body (i, p) db0 = inr ((), set_projects (insert i (f p)) db0)) →
  NoDup l.*1 →
  ∀ db, (∀ i p, (i, p) ∈ l → projects db !! i = Some p) →
  ∃ db', for_each l body db = inr ((), db')
    ∧ users db' = users db ∧ user_profiles db' = user_profiles db
    ∧ work_sessions db' = work_sessions db
    ∧ (∀ i p, (i, p) ∈ l → projects db' !! i = Some (f p))
    ∧ (∀ j, j ∉ l.*1 → projects db' !! j = projects db !! j).
Proof.
  induction l as [|[i p] l IH]; intros Hbody Hnd db Hl.
  - exists db. repeat split; try done. intros ?? []%elem_of_nil.
  - apply NoDup_cons in Hnd as [Hi Hnd]. simpl in Hi.
    destruct (IH (λ j q db0 Hj, Hbody j q db0 (list_elem_of_further _ _ _ Hj)) Hnd
                (set_projects (insert i (f p)) db))
      as (db' & Hrun & Hu & Hpr & Hws & Hin & Hout).
    { intros j q Hj. simpl. rewrite lookup_insert_ne; [by apply Hl; right|].
      intros <-. apply Hi. apply list_elem_of_fmap. by exists (i, q). }
    exists db'. split; [|repeat split; try done].
    + simpl. erewrite bind_run; [exact Hrun|].
      apply Hbody; [by left|]. apply Hl. by left.
    + intros j q [[= -> ->]|Hj]%elem_of_cons; [|by apply Hin].
      rewrite Hout by done. simpl. apply lookup_insert_eq.
    + intros j Hj. apply not_elem_of_cons in Hj as [Hne Hj]. simpl in Hne.
      rewrite Hout by done. simpl. by rewrite lookup_insert_ne.
Qed.

(** ** The resolver, against the specification's words *)

Lemma elem_of_completed_ids_of uid db l d :
  l ≡ₚ projects_of uid db →
  d ∈ completed_ids_of l ↔ done_sibling db uid d.
Proof.
  intros Hl. unfold completed_ids_of, done_sibling.
  rewrite elem_of_list_to_set, list_elem_of_fmap. split.
  - intros [[i q] [-> [Hdone Hq]%list_elem_of_filter]]. simpl in *.
    rewrite Hl in Hq. apply elem_of_projects_of in Hq as [??]. eauto.
  - intros (q & Hq & Hu & Hdone). exists (d, q). split; [done|].
    apply list_elem_of_filter. split; [done|].
    rewrite Hl. by apply elem_of_projects_of.
Qed.

Lemma all_deps_met_spec uid db l p :
  l ≡ₚ projects_of uid db →
  all_deps_met (completed_ids_of l) p = true ↔ deps_met db uid p.
Proof.
  intros Hl. unfold all_deps_met, deps_met.
  rewrite forallb_forall, Forall_forall. split; intros H d Hd.
  - apply (elem_of_completed_ids_of uid db l d Hl).
    apply list_elem_of_In in Hd. apply H in Hd. by apply bool_decide_eq_true in Hd.
  - apply bool_decide_eq_true, (elem_of_completed_ids_of uid db l d Hl), H.
    by apply list_elem_of_In.
Qed.

Lemma set_projects_insert_id i p db :
  projects db !! i = Some p → set_projects (insert i p) db = db.
Proof.
  intros H. apply Db_eq; try done. simpl. by apply insert_id.
Qed.

Lemma assign_status_run i v p db :
  projects db !! i = Some p →
  assign_status i v db = inr ((), set_projects (insert i (Project.set_status v p)) db).
Proof.
  intros H. unfold assign_status, modify. do 2 f_equal.
  apply Db_eq; try done. simpl. apply map_eq. intros j.
  rewrite lookup_alter, lookup_insert. case_decide; [subst; by rewrite H|done].
Qed.

(** One pass rewrites exactly the rows of the user, each to [resolve_row]
    of its state before the pass; it never raises. *)
Lemma check_project_dependencies_run uid db :
  check_project_dependencies uid db =
  inr ((), set_projects (fmap (λ p,
             if decide (Project.user_id p = uid) then resolve_row db uid p else p)) db).
Proof.
  unfold check_project_dependencies.
  destruct (get_projects_by_user_run uid db) as (l & Hget & Hl).
  erewrite bind_run by exact Hget.
  destruct (for_each_rows (resolve_row db uid)
    (λ '(id, project),
      if bool_decide (Project.status project ∈ [DONE; IN_PROGRESS]) then mret ()
      else
        let all_deps_met := all_deps_met (completed_ids_of l) project in
        if all_deps_met && bool_decide (Project.status project = LOCKED)
        then assign_status id UNLOCKED
        else if negb all_deps_met && bool_decide (Project.status project = UNLOCKED)
        then assign_status id LOCKED
        else mret ()) l) with (db := db)
    as (db' & Hrun & Hu & Hpr & Hws & Hin & Hout).
  - intros i p db0 _ Hp. unfold resolve_row.
    assert (all_deps_met (completed_ids_of l) p = bool_decide (deps_met db uid p))
      as ->.
    { pose proof (all_deps_met_spec uid db l p Hl) as Hmet.
      destruct (all_deps_met (completed_ids_of l) p); symmetry.
      - by apply bool_decide_eq_true, Hmet.
      - apply bool_decide_eq_false. intros Hd%Hmet. discriminate. }
    assert (Project.set_status (Project.status p) p = p) as Hsame by by destruct p.
    destruct (Project.status p) eqn:Hst; simpl;
      (destruct (decide (deps_met db uid p));
       [try rewrite bool_decide_eq_true_2 by done
       |try rewrite bool_decide_eq_false_2 by done]); simpl;
      try (case_decide as Hor; [try (by destruct Hor)|try (exfalso; apply Hor; by auto)]);
      first [by rewrite set_projects_insert_id
            |by apply assign_status_run
            |by rewrite Hsame, set_projects_insert_id].
  - rewrite Hl. apply NoDup_projects_of.
  - intros i p Hp. rewrite Hl in Hp. by apply elem_of_projects_of in Hp as [??].
  - erewrite bind_run by exact Hrun. unfold flush, mret, M_ret. do 2 f_equal.
    apply Db_eq; try done. simpl. apply map_eq. intros j. rewrite lookup_fmap.
    destruct (projects db !! j) as [p|] eqn:Hj; simpl.
    + case_decide as Hu'.
      * apply Hin. rewrite Hl. by apply elem_of_projects_of.
      * rewrite Hout, Hj; [done|].
        intros [[j' q] [-> Hq]]%list_elem_of_fmap. simpl in *.
        rewrite Hl in Hq. apply elem_of_projects_of in Hq as [??]. congruence.
    + rewrite Hout, Hj; [done|].
      intros [[j' q] [-> Hq]]%list_elem_of_fmap. simpl in *.
      rewrite Hl in Hq. apply elem_of_projects_of in Hq as [??]. congruence.
Qed.

Lemma resolve_row_user_id db uid p :
  Project.user_id (resolve_row db uid p) = Project.user_id p.
Proof. unfold resolve_row. by repeat case_decide. Qed.

Lemma resolve_row_dependencies db uid p :
  Project.dependencies (resolve_row db uid p) = Project.dependencies p.
Proof. unfold resolve_row. by repeat case_decide. Qed.

Lemma resolve_row_done db uid p :
  Project.status (resolve_row db uid p) = DONE ↔ Project.status p = DONE.
Proof. unfold resolve_row. repeat case_decide; simpl; naive_solver. Qed.

Lemma resolve_row_in_progress db uid p :
  Project.status (resolve_row db uid p) = IN_PROGRESS ↔ Project.status p = IN_PROGRESS.
Proof. unfold resolve_row. repeat case_decide; simpl; naive_solver. Qed.

(** A pass neither creates nor removes a done sibling. *)
Lemma done_sibling_resolved db uid d :
  done_sibling
    (set_projects (fmap (λ p,
       if decide (Project.user_id p = uid) then resolve_row db uid p else p)) db)
    uid d
  ↔ done_sibling db uid d.
Proof.
  unfold done_sibling. simpl. rewrite lookup_fmap.
  destruct (projects db !! d) as [q|]; simpl; [|naive_solver].
  split.
  - intros (q' & [= <-] & Hu & Hd). exists q. split; [done|].
    case_decide; [|done]. rewrite resolve_row_user_id in Hu.
    by apply resolve_row_done in Hd.
  - intros (q' & [= <-] & Hu & Hd). eexists. split; [done|].
    rewrite decide_True by done.
    by rewrite resolve_row_user_id, resolve_row_done.
Qed.

Lemma resolve_row_idemp db uid p :
  resolve_row
    (set_projects (fmap (λ p,
       if decide (Project.user_id p = uid) then resolve_row db uid p else p)) db)
    uid (resolve_row db uid p)
  = resolve_row db uid p.
Proof.
  set (db1 := set_projects _ db).
  assert (deps_met db1 uid (resolve_row db uid p) ↔ deps_met db uid p) as Hmet.
  { unfold deps_met. rewrite resolve_row_dependencies.
    apply Forall_proper; [|done]. intros d. apply done_sibling_resolved. }
  unfold resolve_row at 1.
  case_decide as Hact; [done|].
  rewrite (resolve_row_done db uid), (resolve_row_in_progress db uid) in Hact.
  rewrite (decide_ext _ _ _ _ Hmet).
  unfold resolve_row.
  destruct (decide (Project.status p = DONE ∨ Project.status p = IN_PROGRESS));
    [done|].
  case_decide; by destruct p.
Qed.

(** C1.  A resolver pass never raises.  It leaves a project that is done or
    in progress exactly as it was; any other project of the user ends with
    status unlocked when every id in its dependencies is the id of a done
    sibling, and with status locked otherwise, nothing else in its row
    changing.  A dependency that is not the id of one of the user's projects
    is unmet, and a locked project with no dependency ends unlocked. *)
Theorem check_project_dependencies_spec (db : Db) (uid : string) :
  ∃ db', check_project_dependencies uid db = inr ((), db')
    ∧ ∀ i p, projects db !! i = Some p → Project.user_id p = uid →
        ((Project.status p = DONE ∨ Project.status p = IN_PROGRESS) →
           projects db' !! i = Some p)
      ∧ (Project.status p ≠ DONE → Project.status p ≠ IN_PROGRESS →
           deps_met db uid p →
           projects db' !! i = Some (Project.set_status UNLOCKED p))
      ∧ (Project.status p ≠ DONE → Project.status p ≠ IN_PROGRESS →
           ¬ deps_met db uid p →
           projects db' !! i = Some (Project.set_status LOCKED p))
      ∧ (Project.status p ≠ DONE → Project.status p ≠ IN_PROGRESS →
           ∀ d, d ∈ Project.dependencies p →
                (∀ q, projects db !! d = Some q → Project.user_id q ≠ uid) →
           projects db' !! i = Some (Project.set_status LOCKED p))
      ∧ (Project.status p = LOCKED → Project.dependencies p = [] →
           projects db' !! i = Some (Project.set_status UNLOCKED p)).
Proof.
  eexists. split; [apply check_project_dependencies_run|].
  intros i p Hp Hu. simpl. rewrite lookup_fmap, Hp. simpl.
  rewrite decide_True by done. unfold resolve_row.
  assert (∀ d, d ∈ Project.dependencies p →
            (∀ q, projects db !! d = Some q → Project.user_id q ≠ uid) →
            ¬ deps_met db uid p) as Hdangling.
  { intros d Hd Hnone Hmet. unfold deps_met in Hmet.
    rewrite Forall_forall in Hmet. destruct (Hmet d Hd) as (q & Hq & Hqu & _).
    by apply (Hnone q). }
  repeat split.
  - intros Hact. by rewrite decide_True.
  - intros H1 H2 Hmet. rewrite decide_False by by intros [|].
    by rewrite decide_True.
  - intros H1 H2 Hmet. rewrite decide_False by by intros [|].
    by rewrite decide_False.
  - intros H1 H2 d Hd Hnone. rewrite decide_False by by intros [|].
    rewrite decide_False; [done|]. by eapply Hdangling.
  - intros Hst Hdeps. rewrite decide_False by (rewrite Hst; by intros [|]).
    rewrite decide_True; [done|]. unfold deps_met. rewrite Hdeps. constructor.
Qed.

Lemma check_project_dependencies_spec_witness :
  ∃ db', check_project_dependencies "u1" sample_db = inr ((), db')
    ∧ projects db' !! "a" = Some (sample_project "u1" DONE [])
    ∧ projects db' !! "b" = Some (sample_project "u1" UNLOCKED ["a"])
    ∧ projects db' !! "c" = Some (sample_project "u1" LOCKED ["b"])
    ∧ projects db' !! "d" = Some (sample_project "u1" LOCKED ["a"; "x"])
    ∧ projects db' !! "f" = Some (sample_project "u1" UNLOCKED []).
Proof.
  destruct (check_project_dependencies_spec sample_db "u1") as (db' & Hrun & Hspec).
  exists db'. split; [exact Hrun|].
  pose proof (Hspec "a" (sample_project "u1" DONE []) eq_refl eq_refl)
    as (Ha & _).
  pose proof (Hspec "b" (sample_project "u1" LOCKED ["a"]) eq_refl eq_refl)
    as (_ & Hb & _).
  pose proof (Hspec "c" (sample_project "u1" UNLOCKED ["b"]) eq_refl eq_refl)
    as (_ & _ & Hc & _).
  pose proof (Hspec "d" (sample_project "u1" LOCKED ["a"; "x"]) eq_refl eq_refl)
    as (_ & _ & _ & Hd & _).
  pose proof (Hspec "f" (sample_project "u1" LOCKED []) eq_refl eq_refl)
    as (_ & _ & _ & _ & Hf).
  split; [|split; [|split; [|split]]].
  - apply Ha. left. reflexivity.
  - apply Hb; [by_computation|by_computation|].
    apply (bool_decide_unpack _). by_computation.
  - apply Hc; [by_computation|by_computation|].
    apply (bool_decide_unpack (¬ _)). by_computation.
  - apply (Hd ltac:(by_computation) ltac:(by_computation) "x").
    + right. left.
    + intros q Hq. vm_compute in Hq. injection Hq as <-. discriminate.
  - apply Hf; reflexivity.
Defined.

(** The store a pass returns is a fixed point of the pass. *)
Lemma check_project_dependencies_fixed db uid :
  let db1 := set_projects (fmap (λ p,
    if decide (Project.user_id p = uid) then resolve_row db uid p else p)) db in
  check_project_dependencies uid db1 = inr ((), db1).
Proof.
  intros db1. rewrite check_project_dependencies_run. do 2 f_equal.
  apply Db_eq; try done. simpl. rewrite <- map_fmap_compose.
  apply map_fmap_ext. intros i p _. simpl.
  destruct (decide (Project.user_id p = uid)) as [Hu|Hu].
  - rewrite decide_True by by rewrite resolve_row_user_id.
    apply resolve_row_idemp.
  - by rewrite decide_False.
Qed.

(** C2.  The resolver is idempotent: the store a pass produces is a fixed
    point of the pass. *)
Theorem check_project_dependencies_idempotent (db : Db) (uid : string) :
  ∃ db1, check_project_dependencies uid db = inr ((), db1)
    ∧ check_project_dependencies uid db1 = inr ((), db1).
Proof.
  eexists. split; [apply check_project_dependencies_run|].
  apply check_project_dependencies_fixed.
Qed.

(** ** Deleting a project *)

Lemma get_project_by_id_owned pid uid db p :
  projects db !! pid = Some p → Project.user_id p = uid →
  get_project_by_id pid uid db = inr (Some (p, sessions_of pid db), db).
Proof.
  intros Hp Hu. unfold get_project_by_id, query. rewrite Hp.
  by rewrite decide_True.
Qed.

(** A project of another user is not found, exactly as an id that does
    not exist. *)
Lemma get_project_by_id_foreign pid uid db :
  (∀ p, projects db !! pid = Some p → Project.user_id p ≠ uid) →
  get_project_by_id pid uid db = inr (None, db).
Proof.
  intros Hp. unfold get_project_by_id, query.
  destruct (projects db !! pid) as [p|]; [|done].
  rewrite decide_False; [done|]. by apply Hp.
Qed.

Lemma set_dependencies_same p :
  Project.set_dependencies (Project.dependencies p) p = p.
Proof. by destruct p. Qed.

(** The bulk [UPDATE] that sets every [dependencies] to itself writes
    nothing new. *)
Lemma rewrite_dependencies_run uid db :
  rewrite_dependencies uid db = inr ((), db).
Proof.
  unfold rewrite_dependencies, modify. do 2 f_equal.
  apply Db_eq; try done. simpl. rewrite <- (map_fmap_id (projects db)) at 2.
  apply map_fmap_ext. intros i p _. case_decide; [apply set_dependencies_same|done].
Qed.

Lemma filter_ne_id (x : string) (l : list string) :
  x ∉ l → filter (λ d, d ≠ x) l = l.
Proof.
  induction l as [|d l IH]; [done|].
  intros [Hne Hl]%not_elem_of_cons.
  rewrite filter_cons_True by done. by rewrite IH.
Qed.

Lemma not_elem_of_filter_ne (x : string) (l : list string) :
  x ∉ filter (λ d, d ≠ x) l.
Proof. intros [Hne _]%list_elem_of_filter. done. Qed.

Lemma assign_dependencies_run i v p db :
  projects db !! i = Some p →
  assign_dependencies i v db
  = inr ((), set_projects (insert i (Project.set_dependencies v p)) db).
Proof.
  intros H. unfold assign_dependencies, modify. do 2 f_equal.
  apply Db_eq; try done. simpl. apply map_eq. intros j.
  rewrite lookup_alter, lookup_insert. case_decide; [subst; by rewrite H|done].
Qed.

(** [delete_project] on a project the user owns: the purge, then one
    resolver pass over what is left. *)
Lemma delete_project_run x uid db p :
  projects db !! x = Some p → Project.user_id p = uid →
  let db1 := purge_project x uid db in
  delete_project x uid db
  = inr (true, set_projects (fmap (λ p,
            if decide (Project.user_id p = uid) then resolve_row db1 uid p else p))
          db1).
Proof.
  intros Hp Hu. unfold delete_project.
  erewrite bind_run by by apply get_project_by_id_owned.
  cbn beta iota.
  erewrite bind_run by apply rewrite_dependencies_run.
  destruct (get_projects_by_user_run uid db) as (l & Hget & Hl).
  erewrite bind_run by exact Hget.
  destruct (for_each_rows (without_dependency x)
    (λ '(id, p),
      if bool_decide (x ∈ Project.dependencies p) then
        assign_dependencies id (filter (λ d, d ≠ x) (Project.dependencies p))
      else mret ()) l) with (db := db)
    as (db' & Hrun & Husers & Hprofiles & Hsessions & Hin & Hout).
  - intros i q db0 _ Hq. case_bool_decide as Hx.
    + by apply assign_dependencies_run.
    + unfold without_dependency. rewrite filter_ne_id by done.
      by rewrite set_dependencies_same, set_projects_insert_id.
  - rewrite Hl. apply NoDup_projects_of.
  - intros i q Hq. rewrite Hl in Hq. by apply elem_of_projects_of in Hq as [??].
  - erewrite bind_run by exact Hrun.
    assert (delete_row x db' = inr ((), purge_project x uid db)) as Hdel.
    { unfold delete_row, modify, purge_project. do 2 f_equal.
      apply Db_eq; simpl; try done; [|by rewrite Hsessions].
      f_equal. apply map_eq. intros j. rewrite lookup_fmap.
      destruct (projects db !! j) as [q|] eqn:Hj; simpl.
      - case_decide as Hqu.
        + apply Hin. rewrite Hl. by apply elem_of_projects_of.
        + rewrite Hout, Hj; [done|].
          intros [[j' q'] [-> Hq']]%list_elem_of_fmap. simpl in *.
          rewrite Hl in Hq'. apply elem_of_projects_of in Hq' as [??]. congruence.
      - rewrite Hout, Hj; [done|].
        intros [[j' q'] [-> Hq']]%list_elem_of_fmap. simpl in *.
        rewrite Hl in Hq'. apply elem_of_projects_of in Hq' as [??]. congruence. }
    erewrite bind_run by exact Hdel.
    erewrite bind_run by reflexivity.
    erewrite bind_run by apply check_project_dependencies_run.
    reflexivity.
Qed.

Lemma done_sibling_purged x uid db d :
  d ≠ x → done_sibling db uid d → done_sibling (purge_project x uid db) uid d.
Proof.
  intros Hne (q & Hq & Hu & Hd). unfold done_sibling. simpl.
  rewrite lookup_delete_ne by done. rewrite lookup_fmap, Hq. simpl.
  rewrite decide_True by done. eexists. split; [done|]. by destruct q.
Qed.

(** C3.  Deleting a project [x] that the user owns succeeds, and is the
    purge of [x] followed by one resolver pass in the same operation:
    [x] is gone, every other project of the user keeps its dependencies
    minus [x], no project of the user mentions [x] afterwards, and a locked
    project whose dependencies other than [x] were all met ends unlocked. *)
Theorem delete_project_spec (db : Db) (x uid : string) (px : Project.t) :
  projects db !! x = Some px → Project.user_id px = uid →
  ∃ db', delete_project x uid db = inr (true, db')
    ∧ check_project_dependencies uid (purge_project x uid db) = inr ((), db')
    ∧ projects db' !! x = None
    ∧ (∀ i p, i ≠ x → projects db !! i = Some p → Project.user_id p = uid →
         ∃ p', projects db' !! i = Some p'
           ∧ Project.dependencies p'
             = filter (λ d, d ≠ x) (Project.dependencies p))
    ∧ (∀ i p', projects db' !! i = Some p' → Project.user_id p' = uid →
         x ∉ Project.dependencies p')
    ∧ (∀ i p, i ≠ x → projects db !! i = Some p → Project.user_id p = uid →
         Project.status p = LOCKED →
         (∀ d, d ∈ Project.dependencies p → d ≠ x → done_sibling db uid d) →
         projects db' !! i
         = Some (Project.set_status UNLOCKED (without_dependency x p))).
Proof.
  intros Hx Hu. eexists.
  split; [by eapply delete_project_run|].
  split; [apply check_project_dependencies_run|].
  assert (∀ i p, i ≠ x → projects db !! i = Some p → Project.user_id p = uid →
            projects (purge_project x uid db) !! i = Some (without_dependency x p))
    as Hmid.
  { intros i p Hne Hp Hpu. simpl. rewrite lookup_delete_ne by done.
    rewrite lookup_fmap, Hp. simpl. by rewrite decide_True. }
  repeat split.
  - simpl. by rewrite lookup_fmap, lookup_delete_eq.
  - intros i p Hne Hp Hpu. eexists. split.
    + cbn [projects set_projects]. rewrite lookup_fmap, (Hmid i p) by done.
      simpl. rewrite decide_True by done. reflexivity.
    + by rewrite resolve_row_dependencies.
  - intros i p'. cbn [projects set_projects]. rewrite lookup_fmap.
    destruct (decide (i = x)) as [->|Hne];
      [simpl; by rewrite lookup_delete_eq|].
    simpl. rewrite lookup_delete_ne by done. rewrite lookup_fmap.
    destruct (projects db !! i) as [p|]; [|done]. simpl.
    intros [= <-] Hu'.
    destruct (decide (Project.user_id p = uid)) as [Hpu|Hpu].
    + rewrite decide_True by done. rewrite resolve_row_dependencies.
      apply not_elem_of_filter_ne.
    + by rewrite decide_False in Hu' by done.
  - intros i p Hne Hp Hpu Hst Hdeps.
    cbn [projects set_projects]. rewrite lookup_fmap, (Hmid i p) by done.
    simpl. rewrite decide_True by done. f_equal.
    unfold resolve_row. rewrite decide_False by (simpl; rewrite Hst; by intros [|]).
    rewrite decide_True; [done|].
    unfold deps_met. simpl. apply Forall_forall.
    intros d [Hd1 Hd2]%list_elem_of_filter.
    apply done_sibling_purged; [done|]. by apply Hdeps.
Qed.

Lemma delete_project_spec_witness :
  ∃ db', delete_project "b" "u1" sample_db = inr (true, db')
    ∧ projects db' !! "b" = None
    ∧ projects db' !! "g" = Some (sample_project "u1" UNLOCKED ["a"]).
Proof.
  destruct (delete_project_spec sample_db "b" "u1"
              (sample_project "u1" LOCKED ["a"]) eq_refl eq_refl)
    as (db' & Hrun & _ & Hgone & _ & _ & Hunlock).
  exists db'. split; [exact Hrun|]. split; [exact Hgone|].
  apply (Hunlock "g" (sample_project "u1" LOCKED ["a"; "b"]));
    [by_computation|reflexivity|reflexivity|reflexivity|].
  intros d Hd Hne.
  apply elem_of_cons in Hd as [->|Hd].
  - exists (sample_project "u1" DONE []). by repeat split.
  - apply list_elem_of_singleton in Hd. by subst.
Defined.

(** ** Time aggregation *)










(** ** Isolation between users *)

Lemma update_project_foreign pid uid data db :
  (∀ p, projects db !! pid = Some p → Project.user_id p ≠ uid) →
  update_project pid uid data db = inr (None, db).
Proof.
  intros H. unfold update_project.
  by erewrite bind_run by by apply get_project_by_id_foreign.
Qed.

Lemma delete_project_foreign pid uid db :
  (∀ p, projects db !! pid = Some p → Project.user_id p ≠ uid) →
  delete_project pid uid db = inr (false, db).
Proof.
  intros H. unfold delete_project.
  by erewrite bind_run by by apply get_project_by_id_foreign.
Qed.

Lemma add_session_to_project_foreign pid uid data uuid db :
  (∀ p, projects db !! pid = Some p → Project.user_id p ≠ uid) →
  add_session_to_project pid uid data uuid db = inr (None, db).
Proof.
  intros H. unfold add_session_to_project.
  by erewrite bind_run by by apply get_project_by_id_foreign.
Qed.

Lemma get_sessions_by_project_foreign pid uid db :
  (∀ p, projects db !! pid = Some p → Project.user_id p ≠ uid) →
  get_sessions_by_project pid uid db = inr ([], db).
Proof.
  intros H. unfold get_sessions_by_project.
  by erewrite bind_run by by apply get_project_by_id_foreign.
Qed.

(** C5, as the code has it.  When the project id is not the id of one of
    the caller's projects, whether it belongs to another user or to nobody,
    reading, updating and deleting the project and adding a session to it
    all fail with the same 404, and the store is left as it was; listing
    its sessions does not fail and returns the empty list.  None of the
    five answers depends on the row or on its sessions. *)
Theorem cross_user_isolation (db : Db) (pid uid : string) :
  (∀ p, projects db !! pid = Some p → Project.user_id p ≠ uid) →
  routes_projects.get_project pid uid db = project_not_found
  ∧ (∀ data, routes_projects.update_project pid data uid db = project_not_found)
  ∧ routes_projects.delete_project pid uid db = project_not_found
  ∧ (∀ data uuid,
       routes_projects.add_session pid data uid uuid db = project_not_found)
  ∧ routes_projects.get_sessions pid uid db = inr ([], db)
  ∧ (∀ data, run_request (routes_projects.update_project pid data uid) db
             = (inl (HTTPException HTTP_404_NOT_FOUND "Project not found"), db))
  ∧ run_request (routes_projects.delete_project pid uid) db
    = (inl (HTTPException HTTP_404_NOT_FOUND "Project not found"), db)
  ∧ (∀ data uuid, run_request (routes_projects.add_session pid data uid uuid) db
                  = (inl (HTTPException HTTP_404_NOT_FOUND "Project not found"), db)).
Proof.
  intros H.
  assert (routes_projects.get_project pid uid db = project_not_found) as H1.
  { unfold routes_projects.get_project.
    by erewrite bind_run by by apply get_project_by_id_foreign. }
  assert (∀ data, routes_projects.update_project pid data uid db = project_not_found)
    as H2.
  { intros data. unfold routes_projects.update_project.
    by erewrite bind_run by by apply update_project_foreign. }
  assert (routes_projects.delete_project pid uid db = project_not_found) as H3.
  { unfold routes_projects.delete_project.
    by erewrite bind_run by by apply delete_project_foreign. }
  assert (∀ data uuid,
            routes_projects.add_session pid data uid uuid db = project_not_found)
    as H4.
  { intros data uuid. unfold routes_projects.add_session.
    by erewrite bind_run by by apply add_session_to_project_foreign. }
  repeat split; try done.
  - unfold routes_projects.get_sessions.
    by erewrite bind_run by by apply get_sessions_by_project_foreign.
  - intros data. unfold run_request. by rewrite H2.
  - unfold run_request. by rewrite H3.
  - intros data uuid. unfold run_request. by rewrite H4.
Qed.

Lemma cross_user_isolation_witness :
  routes_projects.get_project "x" "u1" sample_db = project_not_found
  ∧ routes_projects.get_project "zzz" "u1" sample_db = project_not_found
  ∧ routes_projects.get_sessions "a" "u2" sample_db = inr ([], sample_db).
Proof.
  split; [|split].
  - apply (cross_user_isolation sample_db "x" "u1").
    intros p Hp. vm_compute in Hp. injection Hp as <-. discriminate.
  - apply (cross_user_isolation sample_db "zzz" "u1").
    intros p Hp. vm_compute in Hp. discriminate.
  - apply (cross_user_isolation sample_db "a" "u2").
    intros p Hp. vm_compute in Hp. injection Hp as <-. discriminate.
Defined.

(** C5, as stated, fails for the listing of sessions: [u2] lists the
    sessions of project [a], which [u1] owns and which has two sessions;
    the route answers with a list, not with a 404. *)
Lemma get_sessions_foreign_is_not_404 :
  (∃ p, projects sample_db !! "a" = Some p ∧ Project.user_id p = "u1")
  ∧ sessions_of "a" sample_db ≠ []
  ∧ run_request (routes_projects.get_sessions "a" "u2") sample_db
    = (inr [], sample_db)
  ∧ ∀ status_code detail,
      routes_projects.get_sessions "a" "u2" sample_db
      ≠ inl (HTTPException status_code detail).
Proof.
  assert (routes_projects.get_sessions "a" "u2" sample_db = inr ([], sample_db))
    as Hrun.
  { apply (get_sessions_by_project_foreign "a" "u2" sample_db).
    intros p Hp. vm_compute in Hp. injection Hp as <-. discriminate. }
  split; [eexists; split; reflexivity|].
  split; [by_computation|].
  split; [unfold run_request; by rewrite Hrun|].
  intros status_code detail. rewrite Hrun. discriminate.
Qed.

(** ** Lookups by a unique column *)

(** A [WHERE] on a column with a unique constraint selects no row or
    exactly one. *)
Lemma filter_unique_column {A : Type} (P : string * A → Prop)
    `{∀ r, Decision (P r)} (m : gmap string A) :
  (∀ i j a b, m !! i = Some a → m !! j = Some b → P (i, a) → P (j, b) → i = j) →
  (filter P (map_to_list m) = [] ∧ ∀ i a, m !! i = Some a → ¬ P (i, a))
  ∨ (∃ i a, m !! i = Some a ∧ P (i, a) ∧ filter P (map_to_list m) = [(i, a)]).
Proof.
  intros Huniq.
  assert (∀ r, r ∈ filter P (map_to_list m) ↔ P r ∧ m !! r.1 = Some r.2) as Hin.
  { intros [i a]. by rewrite list_elem_of_filter, elem_of_map_to_list. }
  assert (NoDup (filter P (map_to_list m))) as Hnd
    by apply NoDup_filter, NoDup_map_to_list.
  destruct (filter P (map_to_list m)) as [|[i a] [|[j b] l]].
  - left. split; [done|]. intros i a Ha HP.
    apply (not_elem_of_nil (i, a)). apply Hin. by split.
  - right. exists i, a.
    destruct (proj1 (Hin (i, a))) as [HP Ha]; [by left|]. by repeat split.
  - exfalso.
    destruct (proj1 (Hin (i, a))) as [HPa Ha]; [by left|].
    destruct (proj1 (Hin (j, b))) as [HPb Hb]; [by right; left|].
    simpl in *. assert (i = j) as -> by by eapply Huniq.
    assert (a = b) as -> by congruence.
    apply NoDup_cons in Hnd as [Hnotin _]. apply Hnotin. by left.
Qed.

Lemma get_user_by_username_run str_lower username db :
  unique_usernames db →
  (get_user_by_username str_lower username db = inr (None, db)
   ∧ ∀ i u, users db !! i = Some u → User.username u ≠ str_lower username)
  ∨ (∃ i u, users db !! i = Some u ∧ User.username u = str_lower username
       ∧ get_user_by_username str_lower username db = inr (Some (i, u), db)).
Proof.
  intros Huniq. unfold get_user_by_username.
  destruct (filter_unique_column
              (λ r : string * User.t, User.username r.2 = str_lower username)
              (users db)) as [[Hnil Hnone]|(i & u & Hu & HP & Hone)].
  - intros i j u v Hu Hv Hi Hj. simpl in *. eapply Huniq; [done|done|congruence].
  - left. split; [|done]. unfold_M. by rewrite Hnil.
  - right. exists i, u. repeat split; [done|done|]. unfold_M. by rewrite Hone.
Qed.

Lemma get_profile_by_user_id_run uid db :
  unique_profile_user_ids db →
  (get_profile_by_user_id uid db = inr (None, db)
   ∧ ∀ i p, user_profiles db !! i = Some p → UserProfile.user_id p ≠ uid)
  ∨ (∃ i p, user_profiles db !! i = Some p ∧ UserProfile.user_id p = uid
       ∧ get_profile_by_user_id uid db = inr (Some (i, p), db)).
Proof.
  intros Huniq. unfold get_profile_by_user_id.
  destruct (filter_unique_column
              (λ r : string * UserProfile.t, UserProfile.user_id r.2 = uid)
              (user_profiles db)) as [[Hnil Hnone]|(i & p & Hp & HP & Hone)].
  - intros i j p q Hp Hq Hi Hj. simpl in *. eapply Huniq; [done|done|congruence].
  - left. split; [|done]. unfold_M. by rewrite Hnil.
  - right. exists i, p. repeat split; [done|done|]. unfold_M. by rewrite Hone.
Qed.

(** ** The public profile *)

Lemma has_public_profile_unique str_lower db username u p u' p' :
  unique_usernames db → unique_profile_user_ids db →
  has_public_profile str_lower db username u p →
  has_public_profile str_lower db username u' p' →
  u = u' ∧ p = p'.
Proof.
  intros Hu Hp (i & k & Hi & Hname & Hk & Hki & _) (i' & k' & Hi' & Hname' & Hk' & Hki' & _).
  assert (i = i') as <- by (eapply Hu; [done|done|congruence]).
  assert (k = k') as <- by (eapply Hp; [done|done|congruence]).
  split; congruence.
Qed.

Lemma get_public_profile_cases str_lower db username :
  unique_usernames db → unique_profile_user_ids db →
  (∃ user profile,
     has_public_profile str_lower db username user profile
     ∧ routes_users.get_public_profile str_lower username db
       = inr (public_profile_of user profile, db))
  ∨ ((¬ ∃ user profile, has_public_profile str_lower db username user profile)
     ∧ routes_users.get_public_profile str_lower username db
       = inl (HTTPException HTTP_404_NOT_FOUND
                "User not found or profile is private")).
Proof.
  intros Hu Hp.
  unfold routes_users.get_public_profile, get_public_profile_by_username.
  destruct (get_user_by_username_run str_lower username db Hu)
    as [[Hrun Hnone]|(i & u & Hi & Hname & Hrun)].
  - right. split.
    + intros (u & p & j & k & Hj & Hname & _). by apply (Hnone j u).
    + unfold mbind, M_bind. by rewrite Hrun.
  - destruct (get_profile_by_user_id_run i db Hp)
      as [[Hrun' Hnone]|(k & p & Hk & Hki & Hrun')].
    + right. split.
      * intros (u' & p' & j & k & Hj & Hname' & Hk & Hkj & _).
        assert (j = i) as -> by (eapply Hu; [done|done|congruence]).
        by apply (Hnone k p').
      * unfold mbind, M_bind. rewrite Hrun. simpl. by rewrite Hrun'.
    + destruct (UserProfile.is_public p) eqn:Hpub.
      * left. exists u, p. split; [by exists i, k|].
        unfold mbind, M_bind. rewrite Hrun. simpl. rewrite Hrun'. simpl.
        by rewrite Hpub.
      * right. split.
        -- intros (u' & p' & j & k' & Hj & Hname' & Hk' & Hkj & Hpub').
           assert (j = i) as -> by (eapply Hu; [done|done|congruence]).
           assert (k' = k) as -> by (eapply Hp; [done|done|congruence]).
           congruence.
        -- unfold mbind, M_bind. rewrite Hrun. simpl. rewrite Hrun'. simpl.
           by rewrite Hpub.
Qed.

(** C6.  In a store that satisfies its unique constraints, the
    public-profile read answers with the username, the creation date and
    the six profile fields exactly when a user with that username exists
    and their profile is public; in every other case, whether the username
    does not exist or the profile is private, it raises one and the same
    404.  It never writes. *)
Theorem get_public_profile_spec (str_lower : string → string) (db : Db)
    (username : string) :
  unique_usernames db → unique_profile_user_ids db →
  (∀ user profile, has_public_profile str_lower db username user profile →
     routes_users.get_public_profile str_lower username db
     = inr (public_profile_of user profile, db))
  ∧ (∀ r db', routes_users.get_public_profile str_lower username db = inr (r, db') →
       db' = db ∧ ∃ user profile,
         has_public_profile str_lower db username user profile
         ∧ r = public_profile_of user profile)
  ∧ ((¬ ∃ user profile, has_public_profile str_lower db username user profile) →
       routes_users.get_public_profile str_lower username db
       = inl (HTTPException HTTP_404_NOT_FOUND
                "User not found or profile is private")).
Proof.
  intros Hu Hp.
  destruct (get_public_profile_cases str_lower db username Hu Hp)
    as [(u & p & Hpub & Hrun)|[Hnone Hrun]].
  - repeat split.
    + intros u' p' Hpub'.
      by destruct (has_public_profile_unique _ _ _ _ _ _ _ Hu Hp Hpub Hpub')
        as [<- <-].
    + congruence.
    + exists u, p. split; [done|congruence].
    + intros Hnone. exfalso. apply Hnone. by exists u, p.
  - repeat split.
    + intros u p Hpub. exfalso. apply Hnone. by exists u, p.
    + congruence.
    + congruence.
    + done.
Qed.

Lemma NoDup_fmap_eq {A B : Type} (f : A → B) (l : list A) x y :
  NoDup (f <$> l) → x ∈ l → y ∈ l → f x = f y → x = y.
Proof.
  induction l as [|a l IH]; csimpl; [by intros _ ?%elem_of_nil|].
  intros [Ha Hnd]%NoDup_cons [->|Hx]%elem_of_cons [->|Hy]%elem_of_cons Hxy;
    [done| | |by apply IH].
  - exfalso. apply Ha. rewrite Hxy. by apply list_elem_of_fmap_2.
  - exfalso. apply Ha. rewrite <- Hxy. by apply list_elem_of_fmap_2.
Qed.

(** The constraints, checked on the rows of a concrete store. *)
Lemma unique_usernames_by_rows db :
  NoDup (User.username ∘ snd <$> map_to_list (users db)) → unique_usernames db.
Proof.
  intros Hnd i j u v Hi Hj Huv.
  apply elem_of_map_to_list in Hi, Hj.
  by injection (NoDup_fmap_eq _ _ (i, u) (j, v) Hnd Hi Hj Huv).
Qed.

Lemma unique_profile_user_ids_by_rows db :
  NoDup (UserProfile.user_id ∘ snd <$> map_to_list (user_profiles db)) →
  unique_profile_user_ids db.
Proof.
  intros Hnd i j p q Hi Hj Hpq.
  apply elem_of_map_to_list in Hi, Hj.
  by injection (NoDup_fmap_eq _ _ (i, p) (j, q) Hnd Hi Hj Hpq).
Qed.

(** The constraints hold in the empty store and [create_user] keeps them,
    so they hold in every store that registrations build. *)
Lemma empty_db_constraints :
  unique_usernames empty_db ∧ unique_profile_user_ids empty_db.
Proof. split; intros i j ? ? Hi; simpl in Hi; by rewrite lookup_empty in Hi. Qed.

Lemma create_user_keeps_constraints str_lower get_password_hash data
    uuid1 uuid2 now db u db' :
  unique_usernames db → unique_profile_user_ids db →
  create_user str_lower get_password_hash data uuid1 uuid2 now db = inr (u, db') →
  unique_usernames db' ∧ unique_profile_user_ids db'.
Proof.
  intros Hu Hp. unfold create_user.
  intros ([] & db1 & Hadd & ([] & db2 & Haddp & Hret)%bind_inr_inv)%bind_inr_inv.
  unfold add_user in Hadd.
  case_bool_decide as Huser; [|done]. injection Hadd as <-.
  unfold add_profile in Haddp.
  case_bool_decide as Hprofile; [|done]. injection Haddp as <-.
  unfold_M. simpl in Hret. injection Hret as _ <-.
  destruct Huser as [_ Hall1]. destruct Hprofile as [_ Hall2].
  rewrite Forall_forall in Hall1. rewrite Forall_forall in Hall2.
  simpl in *. split.
  - intros i j a b. simpl. rewrite !lookup_insert.
    repeat case_decide; subst; try done.
    + intros [= <-] Hj Hab.
      destruct (Hall1 (j, b)) as [_ Hname]; [by apply elem_of_map_to_list|].
      by destruct Hname.
    + intros Hi [= <-] Hab.
      destruct (Hall1 (i, a)) as [_ Hname]; [by apply elem_of_map_to_list|].
      by destruct Hname.
    + apply Hu.
  - intros i j a b. simpl. rewrite !lookup_insert.
    repeat case_decide; subst; try done.
    + intros [= <-] Hj Hab.
      by destruct (Hall2 (j, b)); [by apply elem_of_map_to_list|].
    + intros Hi [= <-] Hab.
      by destruct (Hall2 (i, a)); [by apply elem_of_map_to_list|].
    + apply Hp.
Qed.

Lemma sample_db_unique_usernames : unique_usernames sample_db.
Proof.
  apply unique_usernames_by_rows, (bool_decide_unpack _). by_computation.
Defined.

Lemma sample_db_unique_profile_user_ids : unique_profile_user_ids sample_db.
Proof.
  apply unique_profile_user_ids_by_rows, (bool_decide_unpack _). by_computation.
Defined.

Lemma get_public_profile_spec_witness :
  routes_users.get_public_profile ascii_lower "Alice" sample_db
  = inr (({| routes_users.pu_username := "alice"; routes_users.createdAt := 0 |},
          {| routes_users.pp_xp := 120;
             routes_users.pp_level := 2;
             routes_users.unlockedBadges := ["b_first_step"];
             routes_users.avatarUrl := None;
             routes_users.bannerUrl := None;
             routes_users.cvConfig := None |}),
         sample_db)
  ∧ routes_users.get_public_profile ascii_lower "bob" sample_db
    = inl (HTTPException HTTP_404_NOT_FOUND "User not found or profile is private")
  ∧ routes_users.get_public_profile ascii_lower "carol" sample_db
    = inl (HTTPException HTTP_404_NOT_FOUND "User not found or profile is private").
Proof.
  split; [|split].
  - apply (proj1 (get_public_profile_spec ascii_lower sample_db "Alice"
                    sample_db_unique_usernames sample_db_unique_profile_user_ids)
             (User.mk "alice@example.com" "alice" "h1" 0)
             (UserProfile.mk "u1" 120 2 ["b_first_step"] None None true None)).
    exists "u1", "pr1". by repeat split.
  - apply (get_public_profile_spec ascii_lower sample_db "bob"
             sample_db_unique_usernames sample_db_unique_profile_user_ids).
    intros (u & p & i & k & Hi & Hname & Hk & Hki & Hpub).
    assert ((k, p) ∈ map_to_list (user_profiles sample_db)) as Hin
      by by apply elem_of_map_to_list.
    assert ((i, u) ∈ map_to_list (users sample_db)) as Hin'
      by by apply elem_of_map_to_list.
    vm_compute in Hin, Hin'.
    repeat (apply elem_of_cons in Hin as [[= -> ->]|Hin]);
      repeat (apply elem_of_cons in Hin' as [[= -> ->]|Hin']);
      try (by apply elem_of_nil in Hin); try (by apply elem_of_nil in Hin');
      by vm_compute in Hname, Hki, Hpub.
  - apply (get_public_profile_spec ascii_lower sample_db "carol"
             sample_db_unique_usernames sample_db_unique_profile_user_ids).
    intros (u & p & i & k & Hi & Hname & _).
    assert ((i, u) ∈ map_to_list (users sample_db)) as Hin'
      by by apply elem_of_map_to_list.
    vm_compute in Hin'.
    repeat (apply elem_of_cons in Hin' as [[= -> ->]|Hin']);
      try (by apply elem_of_nil in Hin'); by vm_compute in Hname.
Defined.

(** ** Adding XP *)



(** ** Seeding *)

(** A successful run of the seeding loop inserts, under the id of each
    entry and for the given user, the project built from the entry with the
    status the entry carries; the ids were all free before, and nothing else
    is touched. *)
Lemma seed_projects_inv dataset uid now db ps db' :
  seed_projects dataset uid now db = inr (ps, db') →
  Forall2 (λ sd r,
      r.1 = Seed.id sd
      ∧ ∃ st, ProjectStatus_of_string (Seed.status sd) = Some st
              ∧ r.2 = seed_project uid now sd st) dataset ps
  ∧ (∀ i p, (i, p) ∈ ps → projects db' !! i = Some p)
  ∧ (∀ i, i ∈ ps.*1 → projects db !! i = None)
  ∧ (∀ i, i ∉ ps.*1 → projects db' !! i = projects db !! i)
  ∧ users db' = users db ∧ user_profiles db' = user_profiles db
  ∧ work_sessions db' = work_sessions db.
Proof.
  revert db ps db'. induction dataset as [|sd dataset IH]; intros db ps db' Hrun.
  - injection Hrun as <- <-. repeat split; try done.
    + intros i p []%elem_of_nil.
    + intros i []%elem_of_nil.
  - simpl in Hrun.
    destruct (ProjectStatus_of_string (Seed.status sd)) as [st|] eqn:Hst; [|done].
    apply bind_inr_inv in Hrun as ([] & db1 & Hadd & Hrun).
    apply bind_inr_inv in Hrun as (ps' & db2 & Hrest & Hret).
    injection Hret as <- <-.
    unfold add_project in Hadd.
    destruct (projects db !! Seed.id sd) eqn:Hfree; [done|].
    injection Hadd as <-.
    destruct (IH _ _ _ Hrest) as (Hall & Hin & Hfresh & Hout & Hu & Hp & Hw).
    assert (Seed.id sd ∉ ps'.*1) as Hnotin.
    { intros Hi%Hfresh. simpl in Hi. by rewrite lookup_insert_eq in Hi. }
    repeat split; try done.
    + constructor; [|done]. split; [done|]. by exists st.
    + intros i p [[= -> ->]|Hi]%elem_of_cons; [|by apply Hin].
      rewrite Hout by done. simpl. apply lookup_insert_eq.
    + intros i [->|Hi]%elem_of_cons; [done|].
      specialize (Hfresh i Hi). simpl in Hfresh.
      apply lookup_insert_None in Hfresh as [? _]. done.
    + intros i [Hne Hi]%not_elem_of_cons. simpl in Hne.
      rewrite Hout by done. simpl. by rewrite lookup_insert_ne.
Qed.

Lemma seed_initial_projects_inv uid now db ps db' :
  seed_initial_projects uid now db = inr (ps, db') →
  seed_projects INITIAL_DATASET uid now db = inr (ps, db').
Proof.
  unfold seed_initial_projects. intros Hrun.
  apply bind_inr_inv in Hrun as (ps' & db1 & Hseed & Hret).
  unfold_M. by injection Hret as <- <-.
Qed.

Lemma seed_projects_succeeds dataset uid now db :
  NoDup (Seed.id <$> dataset) →
  Forall (λ sd, is_Some (ProjectStatus_of_string (Seed.status sd))) dataset →
  (∀ sd, sd ∈ dataset → projects db !! Seed.id sd = None) →
  ∃ ps db', seed_projects dataset uid now db = inr (ps, db').
Proof.
  revert db. induction dataset as [|sd dataset IH]; intros db Hnd Hst Hfree.
  - by exists [], db.
  - csimpl in Hnd. apply NoDup_cons in Hnd as [Hsd Hnd].
    apply Forall_cons in Hst as [[st Hst] Hsts].
    simpl. rewrite Hst.
    destruct (IH (set_projects
                    (insert (Seed.id sd) (seed_project uid now sd st)) db)
                Hnd Hsts) as (ps & db' & Hrun).
    { intros sd' Hsd'. simpl. rewrite lookup_insert_ne.
      - apply Hfree. by right.
      - intros Heq. apply Hsd. rewrite Heq. by apply list_elem_of_fmap_2. }
    exists ((Seed.id sd, seed_project uid now sd st) :: ps), db'.
    assert (add_project (Seed.id sd) (seed_project uid now sd st) db
            = inr ((), set_projects
                         (insert (Seed.id sd) (seed_project uid now sd st)) db))
      as Hadd.
    { unfold add_project. rewrite (Hfree sd); [done|by left]. }
    erewrite bind_run by exact Hadd.
    erewrite bind_run by exact Hrun. reflexivity.
Qed.



Lemma catalog_ids_eq :
  catalog_ids
  = ["p1_1"; "p1_2"; "p1_3"; "p2_1"; "p2_2"; "p2_3"; "p2_4"; "p3_1"; "p3_2"; "p4_1"].
Proof. reflexivity. Qed.

Lemma seed_initial_projects_rows uid now db ps db' :
  seed_initial_projects uid now db = inr (ps, db') →
  ps.*1 = catalog_ids
  ∧ (∀ sd, sd ∈ INITIAL_DATASET →
       ∃ st, ProjectStatus_of_string (Seed.status sd) = Some st
             ∧ projects db' !! Seed.id sd = Some (seed_project uid now sd st))
  ∧ (∀ i, i ∉ catalog_ids → projects db' !! i = projects db !! i).
Proof.
  intros Hrun%seed_initial_projects_inv.
  destruct (seed_projects_inv _ _ _ _ _ _ Hrun)
    as (Hall & Hin & Hfresh & Hout & _).
  assert (ps.*1 = catalog_ids) as Hids.
  { unfold catalog_ids. clear -Hall.
    induction Hall as [|sd r l k [Hr _] _ IH]; csimpl; [done|]. by rewrite Hr, IH. }
  split; [done|]. split; [|by rewrite <- Hids].
  intros sd [n Hn]%list_elem_of_lookup.
  destruct (Forall2_lookup_l _ _ _ _ _ Hall Hn) as ([i p] & Hr & Hi & st & Hst & Hp).
  simpl in *. subst. exists st. split; [done|].
  apply Hin. by eapply list_elem_of_lookup_2.
Qed.




(** ** Project ids across users *)

Lemma scalar_one_or_none_db {A : Type} (rows : list A) db r db' :
  scalar_one_or_none rows db = inr (r, db') → db' = db.
Proof.
  destruct rows as [|a [|b rows]]; simpl; unfold_M; congruence.
Qed.

Lemma get_user_by_email_db str_lower email db r db' :
  get_user_by_email str_lower email db = inr (r, db') → db' = db.
Proof.
  unfold get_user_by_email. intros (rows & db1 & Hq & Hs)%bind_inr_inv.
  unfold query in Hq. injection Hq as _ <-. by eapply scalar_one_or_none_db.
Qed.

Lemma get_user_by_username_db str_lower username db r db' :
  get_user_by_username str_lower username db = inr (r, db') → db' = db.
Proof.
  unfold get_user_by_username. intros (rows & db1 & Hq & Hs)%bind_inr_inv.
  unfold query in Hq. injection Hq as _ <-. by eapply scalar_one_or_none_db.
Qed.






(** ** Binary64 products *)












(** ** The level curve *)

Lemma all_below_spec (n : positive) (f : Z → bool) :
  all_below n f = true → ∀ i, 0 ≤ i < Zpos n → f i = true.
Proof.
  unfold all_below.
  set (step := λ st : Z * bool, (st.1 + 1, st.2 && f st.1)).
  assert (∀ n, (Pos.iter step (0, true) n).1 = Zpos n
               ∧ ((Pos.iter step (0, true) n).2 = true →
                  ∀ i, 0 ≤ i < Zpos n → f i = true)) as H.
  { clear n. intros n. induction n as [|n [IH1 IH2]] using Pos.peano_ind.
    - simpl. split; [done|]. intros Hf i Hi.
      assert (i = 0) as -> by lia. done.
    - rewrite Pos.iter_succ. unfold step at 1. simpl. rewrite IH1.
      split; [lia|]. intros [Hall Hn]%andb_true_iff i Hi.
      destruct (decide (i = Zpos n)) as [->|Hne]; [done|].
      apply IH2; [done|lia]. }
  apply H.
Qed.

(** Every level from 0 to 10000, checked by evaluation. *)
Lemma curve_ok_below : all_below 10001 curve_ok = true.
Proof. vm_cast_no_check (eq_refl true). Qed.

Lemma is_floor_of_curve_unique level n n' :
  is_floor_of_curve level n → is_floor_of_curve level n' → n = n'.
Proof. unfold is_floor_of_curve. nia. Qed.




(** * Further properties of the code *)

(** ** Ranks *)

(** The loop of [get_rank_for_xp] as a case analysis on the thresholds. *)
Lemma get_rank_for_xp_cases (xp : Z) :
  get_rank_for_xp xp =
  if xp <? 1000 then Rank.mk "novice" "Script Kiddie" 0 "Star" "text-slate-500"
  else if xp <? 3000 then Rank.mk "apprentice" "Code Monkey" 1000 "Award" "text-emerald-500"
  else if xp <? 8000 then Rank.mk "journeyman" "Full Stack Dev" 3000 "Zap" "text-ocean-500"
  else if xp <? 15000 then Rank.mk "expert" "Tech Lead" 8000 "Medal" "text-purple-500"
  else if xp <? 30000 then Rank.mk "master" "SysAdmin Wizard" 15000 "Crown" "text-amber-500"
  else Rank.mk "legend" "10x Engineer" 30000 "Trophy" "text-red-500".
Proof.
  unfold get_rank_for_xp, rank_loop, RANKS. cbn [foldl Rank.min_xp].
  repeat match goal with
         | |- context [?a <=? ?b] => destruct (Z.leb_spec a b)
         | |- context [?a <? ?b] => destruct (Z.ltb_spec a b)
         end; first [reflexivity | lia].
Qed.

(** X1.  [get_rank_for_xp] returns a rank of the table.  For a
    non-negative [xp] it is the rank with the highest threshold that [xp]
    reaches; a negative [xp] reaches no threshold and gets the first rank.
    The threshold of the rank never decreases when [xp] grows. *)
Theorem get_rank_for_xp_spec (xp : Z) :
  get_rank_for_xp xp ∈ RANKS
  ∧ (0 ≤ xp → Rank.min_xp (get_rank_for_xp xp) ≤ xp)
  ∧ (∀ rank, rank ∈ RANKS → Rank.min_xp rank ≤ xp →
       Rank.min_xp rank ≤ Rank.min_xp (get_rank_for_xp xp))
  ∧ (xp < 0 → RANKS !! 0%nat = Some (get_rank_for_xp xp))
  ∧ (∀ xp', xp ≤ xp' →
       Rank.min_xp (get_rank_for_xp xp) ≤ Rank.min_xp (get_rank_for_xp xp')).
Proof.
  rewrite get_rank_for_xp_cases. split_and!.
  - unfold RANKS.
    repeat match goal with
           | |- context [?a <? ?b] => destruct (Z.ltb_spec a b)
           end; set_solver.
  - intros Hxp.
    repeat match goal with
           | |- context [?a <? ?b] => destruct (Z.ltb_spec a b)
           end; simpl; lia.
  - intros rank Hin Hle. unfold RANKS in Hin.
    repeat (apply elem_of_cons in Hin as [->|Hin]; [simpl in Hle|]);
      [..|by apply elem_of_nil in Hin];
      repeat match goal with
             | |- context [?a <? ?b] => destruct (Z.ltb_spec a b)
             end; simpl; lia.
  - intros Hxp. destruct (Z.ltb_spec xp 1000); [reflexivity|lia].
  - intros xp' Hle. rewrite get_rank_for_xp_cases.
    repeat match goal with
           | |- context [?a <? ?b] => destruct (Z.ltb_spec a b)
           end; simpl; lia.
Qed.

Lemma get_rank_for_xp_spec_witness :
  Rank.title (get_rank_for_xp 2999) = "Code Monkey"
  ∧ Rank.min_xp (get_rank_for_xp 2999) ≤ 2999
  ∧ Rank.min_xp (get_rank_for_xp 2999) ≤ Rank.min_xp (get_rank_for_xp 3000).
Proof.
  split; [reflexivity|]. split.
  - apply (get_rank_for_xp_spec 2999). lia.
  - apply (get_rank_for_xp_spec 2999). lia.
Defined.

(** ** The resolver: what a pass leaves alone *)

Lemma resolve_row_status db uid p :
  Project.status (resolve_row db uid p)
  = if decide (Project.status p = DONE ∨ Project.status p = IN_PROGRESS)
    then Project.status p
    else if decide (deps_met db uid p) then UNLOCKED else LOCKED.
Proof. unfold resolve_row. by repeat case_decide. Qed.






(** X3.  Projects caught in a dependency cycle never unlock: if every
    project of a set is neither done nor in progress and depends on a
    project of the set (on itself, or around a longer cycle), a pass leaves
    all of them locked. *)
Theorem dependency_cycle_stays_locked (db : Db) (uid : string)
    (cycle : string → Prop) :
  (∀ i, cycle i →
     ∃ p d, projects db !! i = Some p ∧ Project.user_id p = uid
       ∧ Project.status p ≠ DONE ∧ Project.status p ≠ IN_PROGRESS
       ∧ d ∈ Project.dependencies p ∧ cycle d) →
  ∃ db', check_project_dependencies uid db = inr ((), db')
    ∧ ∀ i, cycle i → Project.status <$> projects db' !! i = Some LOCKED.
Proof.
  intros Hcycle. eexists. split; [apply check_project_dependencies_run|].
  intros i Hi. destruct (Hcycle i Hi) as (p & d & Hp & Hu & Hnd & Hni & Hd & Hcd).
  simpl. rewrite lookup_fmap, Hp. simpl. rewrite decide_True by done.
  f_equal. rewrite resolve_row_status.
  rewrite decide_False by (by intros [|]).
  rewrite decide_False; [done|].
  intros Hmet. unfold deps_met in Hmet. rewrite Forall_forall in Hmet.
  destruct (Hmet d Hd) as (q & Hq & _ & Hdone).
  destruct (Hcycle d Hcd) as (q' & _ & Hq' & _ & Hnd' & _).
  congruence.
Qed.

Lemma dependency_cycle_stays_locked_witness :
  ∃ db', check_project_dependencies "u1" cyclic_db = inr ((), db')
    ∧ Project.status <$> projects db' !! "m" = Some LOCKED
    ∧ Project.status <$> projects db' !! "n" = Some LOCKED
    ∧ Project.status <$> projects db' !! "s" = Some LOCKED.
Proof.
  destruct (dependency_cycle_stays_locked cyclic_db "u1"
              (λ i, i = "m" ∨ i = "n" ∨ i = "s")) as (db' & Hrun & Hlocked).
  - intros i [-> | [-> | ->]].
    + exists (sample_project "u1" LOCKED ["n"]), "n".
      split_and!; [reflexivity|reflexivity|by_computation|by_computation| |].
      * left.
      * right. by left.
    + exists (sample_project "u1" UNLOCKED ["m"]), "m".
      split_and!; [reflexivity|reflexivity|by_computation|by_computation| |].
      * left.
      * by left.
    + exists (sample_project "u1" UNLOCKED ["s"]), "s".
      split_and!; [reflexivity|reflexivity|by_computation|by_computation| |].
      * left.
      * right. by right.
  - exists db'. split; [exact Hrun|].
    split_and!; apply Hlocked; [by left|right; by left|right; by right].
Defined.

(** ** Mutations of a project set *)










(** ** Listings *)

#[global] Instance by_level_created_at_trans : Transitive by_level_created_at.
Proof. intros a b c. unfold by_level_created_at. lia. Qed.

#[global] Instance by_level_created_at_total : Total by_level_created_at.
Proof. intros a b. unfold by_level_created_at. lia. Qed.

#[global] Instance by_start_time_desc_trans : Transitive by_start_time_desc.
Proof. intros a b c. unfold by_start_time_desc. lia. Qed.

#[global] Instance by_start_time_desc_total : Total by_start_time_desc.
Proof. intros a b. unfold by_start_time_desc. lia. Qed.

(** X7.  The project listing is read-only and returns exactly the projects
    of the caller, each once, ordered by level and then by creation time. *)
Theorem get_projects_spec (db : Db) (uid : string) :
  ∃ l, routes_projects.get_projects uid db = inr (l, db)
    ∧ l ≡ₚ projects_of uid db
    ∧ NoDup l.*1
    ∧ StronglySorted by_level_created_at l
    ∧ ∀ i p, (i, p) ∈ l ↔ projects db !! i = Some p ∧ Project.user_id p = uid.
Proof.
  exists (merge_sort by_level_created_at (projects_of uid db)).
  split; [reflexivity|].
  assert (merge_sort by_level_created_at (projects_of uid db) ≡ₚ projects_of uid db)
    as Hperm by apply merge_sort_Permutation.
  split_and!.
  - exact Hperm.
  - rewrite Hperm. apply NoDup_projects_of.
  - apply (StronglySorted_merge_sort _).
  - intros i p. rewrite Hperm. apply elem_of_projects_of.
Qed.

Lemma get_projects_spec_witness :
  ∃ l, routes_projects.get_projects "u1" sample_db = inr (l, sample_db)
    ∧ length l = 7%nat
    ∧ ("a", sample_project "u1" DONE []) ∈ l.
Proof.
  destruct (get_projects_spec sample_db "u1") as (l & Hrun & Hperm & _ & _ & Hin).
  exists l. split; [exact Hrun|]. split.
  - rewrite Hperm. reflexivity.
  - apply Hin. split; reflexivity.
Defined.

Lemma elem_of_sessions_of pid db s ws :
  (s, ws) ∈ sessions_of pid db
  ↔ work_sessions db !! s = Some ws ∧ WorkSession.project_id ws = pid.
Proof.
  unfold sessions_of. rewrite list_elem_of_filter, elem_of_map_to_list. simpl. tauto.
Qed.

(** X8.  For a project of the caller, the session listing is read-only and
    returns exactly the sessions of that project, latest start first. *)
Theorem get_sessions_spec (db : Db) (pid uid : string) (p : Project.t) :
  projects db !! pid = Some p → Project.user_id p = uid →
  ∃ l, routes_projects.get_sessions pid uid db = inr (l, db)
    ∧ l ≡ₚ sessions_of pid db
    ∧ StronglySorted by_start_time_desc l
    ∧ ∀ s ws, (s, ws) ∈ l
        ↔ work_sessions db !! s = Some ws ∧ WorkSession.project_id ws = pid.
Proof.
  intros Hp Hu.
  exists (merge_sort by_start_time_desc (sessions_of pid db)).
  assert (merge_sort by_start_time_desc (sessions_of pid db) ≡ₚ sessions_of pid db)
    as Hperm by apply merge_sort_Permutation.
  split_and!.
  - unfold routes_projects.get_sessions, get_sessions_by_project.
    erewrite bind_run; [reflexivity|].
    erewrite bind_run by by apply get_project_by_id_owned. reflexivity.
  - exact Hperm.
  - apply (StronglySorted_merge_sort _).
  - intros s ws. rewrite Hperm. apply elem_of_sessions_of.
Qed.

Lemma get_sessions_spec_witness :
  ∃ l, routes_projects.get_sessions "a" "u1" sample_db = inr (l, sample_db)
    ∧ l ≡ₚ sessions_of "a" sample_db
    ∧ (("s2", sample_session "a" 1800) ∈ l).
Proof.
  destruct (get_sessions_spec sample_db "a" "u1" (sample_project "u1" DONE [])
              eq_refl eq_refl) as (l & Hrun & Hperm & _ & Hin).
  exists l. split; [exact Hrun|]. split; [exact Hperm|].
  apply Hin. split; reflexivity.
Defined.

(** ** What the mutations of a project leave alone *)




(** X10.  Deleting a project removes its row and exactly its sessions:
    users, profiles, the projects of other users (even those that list the
    deleted id as a dependency) and the sessions of other projects are as
    before.  The id is then unknown to the owner: reading it answers 404
    and a second delete returns false and changes nothing. *)
Theorem delete_project_frame (db : Db) (pid uid : string) (p : Project.t) :
  projects db !! pid = Some p → Project.user_id p = uid →
  ∃ db', delete_project pid uid db = inr (true, db')
    ∧ users db' = users db ∧ user_profiles db' = user_profiles db
    ∧ dom (projects db') = dom (projects db) ∖ {[pid]}
    ∧ (∀ i q, projects db !! i = Some q → Project.user_id q ≠ uid →
         projects db' !! i = Some q)
    ∧ (∀ s ws, work_sessions db' !! s = Some ws
         ↔ work_sessions db !! s = Some ws ∧ WorkSession.project_id ws ≠ pid)
    ∧ routes_projects.get_project pid uid db' = project_not_found
    ∧ delete_project pid uid db' = inr (false, db').
Proof.
  intros Hp Hu. rewrite (delete_project_run _ _ _ _ Hp Hu).
  eexists. split; [reflexivity|].
  assert (∀ q, projects
            (set_projects (fmap (λ q,
               if decide (Project.user_id q = uid)
               then resolve_row (purge_project pid uid db) uid q else q))
               (purge_project pid uid db)) !! pid = Some q →
          Project.user_id q ≠ uid) as Hgone.
  { intros q. simpl. by rewrite lookup_fmap, lookup_delete_eq. }
  split_and!; try done.
  - simpl. by rewrite dom_fmap_L, dom_delete_L, dom_fmap_L.
  - intros i q Hq Hqu. simpl. rewrite lookup_fmap.
    rewrite lookup_delete_ne by congruence.
    rewrite lookup_fmap, Hq. simpl.
    destruct (decide (Project.user_id q = uid)) as [?|_]; [done|].
    by rewrite decide_False.
  - intros s ws. simpl. rewrite map_lookup_filter_Some. simpl. tauto.
  - unfold routes_projects.get_project.
    erewrite bind_run by exact (get_project_by_id_foreign _ _ _ Hgone). done.
  - by apply delete_project_foreign.
Qed.

Lemma delete_project_frame_witness :
  ∃ db', delete_project "a" "u1" sample_db = inr (true, db')
    ∧ work_sessions db' !! "s1" = None
    ∧ projects db' !! "x" = Some (sample_project "u2" DONE [])
    ∧ delete_project "a" "u1" db' = inr (false, db').
Proof.
  destruct (delete_project_frame sample_db "a" "u1" (sample_project "u1" DONE [])
              eq_refl eq_refl)
    as (db' & Hrun & _ & _ & _ & Hothers & Hsessions & _ & Hagain).
  exists db'. split; [exact Hrun|]. split_and!.
  - destruct (work_sessions db' !! "s1") as [ws|] eqn:Hws; [|reflexivity].
    apply Hsessions in Hws as [Hws Hne]. vm_compute in Hws.
    injection Hws as <-. destruct (Hne eq_refl).
  - apply Hothers; [reflexivity|by_computation].
  - exact Hagain.
Defined.

(** ** Creating a project and logging a session *)






(** ** The sign of the logged hours *)




Lemma round_half_even_nonneg n d : 0 ≤ n → 0 < d → 0 ≤ round_half_even n d.
Proof.
  intros Hn Hd. unfold round_half_even.
  assert (0 ≤ n / d) by (apply Z.div_pos; lia).
  repeat case_match; lia.
Qed.






(** ** Accounts: registration and login *)

Lemma filter_no_row {A : Type} (P : string * A → Prop)
    `{∀ r, Decision (P r)} (m : gmap string A) :
  (∀ i a, m !! i = Some a → ¬ P (i, a)) → filter P (map_to_list m) = [].
Proof.
  intros Hnone. apply elem_of_nil_inv. intros [i a] [HP Hin]%list_elem_of_filter.
  apply elem_of_map_to_list in Hin. by eapply Hnone.
Qed.

Lemma get_user_by_email_run str_lower email db :
  unique_emails db →
  (get_user_by_email str_lower email db = inr (None, db)
   ∧ ∀ i u, users db !! i = Some u → User.email u ≠ str_lower email)
  ∨ (∃ i u, users db !! i = Some u ∧ User.email u = str_lower email
       ∧ get_user_by_email str_lower email db = inr (Some (i, u), db)).
Proof.
  intros Huniq. unfold get_user_by_email.
  destruct (filter_unique_column
              (λ r : string * User.t, User.email r.2 = str_lower email)
              (users db)) as [[Hnil Hnone]|(i & u & Hu & HP & Hone)].
  - intros i j u v Hu Hv Hi Hj. simpl in *. eapply Huniq; [done|done|congruence].
  - left. split; [|done]. unfold_M. by rewrite Hnil.
  - right. exists i, u. repeat split; [done|done|]. unfold_M. by rewrite Hone.
Qed.

Lemma get_user_by_email_none str_lower email db :
  (∀ i u, users db !! i = Some u → User.email u ≠ str_lower email) →
  get_user_by_email str_lower email db = inr (None, db).
Proof.
  intros Hnone. unfold get_user_by_email. unfold_M.
  rewrite filter_no_row; [done|]. intros i u Hu. simpl. exact (Hnone i u Hu).
Qed.

Lemma get_user_by_username_none str_lower username db :
  (∀ i u, users db !! i = Some u → User.username u ≠ str_lower username) →
  get_user_by_username str_lower username db = inr (None, db).
Proof.
  intros Hnone. unfold get_user_by_username. unfold_M.
  rewrite filter_no_row; [done|]. intros i u Hu. simpl. exact (Hnone i u Hu).
Qed.

Lemma unique_emails_by_rows db :
  NoDup (User.email ∘ snd <$> map_to_list (users db)) → unique_emails db.
Proof.
  intros Hnd i j u v Hi Hj Huv.
  apply elem_of_map_to_list in Hi, Hj.
  by injection (NoDup_fmap_eq _ _ (i, u) (j, v) Hnd Hi Hj Huv).
Qed.

Lemma sample_db_unique_emails : unique_emails sample_db.
Proof.
  apply unique_emails_by_rows, (bool_decide_unpack _). by_computation.
Defined.

(** [create_user] on a store where the new keys and unique columns are
    free, and what a returning [create_user] has done. *)
Lemma create_user_run str_lower get_password_hash data uuid1 uuid2 now db :
  users db !! uuid1 = None →
  (∀ i u, users db !! i = Some u →
     User.email u ≠ str_lower (UserCreate.email data)
     ∧ User.username u ≠ str_lower (UserCreate.username data)) →
  user_profiles db !! uuid2 = None →
  (∀ i p, user_profiles db !! i = Some p → UserProfile.user_id p ≠ uuid1) →
  let user := User.mk (str_lower (UserCreate.email data))
                (str_lower (UserCreate.username data))
                (get_password_hash (UserCreate.password data)) now in
  create_user str_lower get_password_hash data uuid1 uuid2 now db
  = inr ((uuid1, user),
         set_user_profiles (insert uuid2 (initial_profile uuid1))
           (set_users (insert uuid1 user) db)).
Proof.
  intros Hid Hcols Hpid Hpcol user. unfold create_user.
  erewrite bind_run.
  2:{ unfold add_user. rewrite bool_decide_true; [reflexivity|].
      split; [done|]. apply Forall_forall.
      intros [i u] Hin%elem_of_map_to_list. simpl. by apply Hcols in Hin. }
  erewrite bind_run.
  2:{ unfold add_profile. rewrite bool_decide_true; [reflexivity|].
      split; [done|]. apply Forall_forall.
      intros [i p] Hin%elem_of_map_to_list. simpl. by apply Hpcol in Hin. }
  reflexivity.
Qed.

Lemma create_user_inv str_lower get_password_hash data uuid1 uuid2 now db u db' :
  create_user str_lower get_password_hash data uuid1 uuid2 now db = inr (u, db') →
  let user := User.mk (str_lower (UserCreate.email data))
                (str_lower (UserCreate.username data))
                (get_password_hash (UserCreate.password data)) now in
  u = (uuid1, user)
  ∧ db' = set_user_profiles (insert uuid2 (initial_profile uuid1))
            (set_users (insert uuid1 user) db).
Proof.
  unfold create_user.
  intros ([] & db1 & Hadd & ([] & db2 & Haddp & Hret)%bind_inr_inv)%bind_inr_inv.
  unfold add_user in Hadd.
  case_bool_decide as Huser; [|done]. injection Hadd as <-.
  unfold add_profile in Haddp.
  case_bool_decide as Hprofile; [|done]. injection Haddp as <-.
  unfold_M. simpl in Hret. by injection Hret as <- <-.
Qed.

Lemma register_inv str_lower get_password_hash data uuid1 uuid2 now db u db' :
  routes_auth.register str_lower get_password_hash data uuid1 uuid2 now db
  = inr (u, db') →
  ∃ db1 ps,
    create_user str_lower get_password_hash data uuid1 uuid2 now db = inr (u, db1)
    ∧ seed_initial_projects u.1 now db1 = inr (ps, db').
Proof.
  unfold routes_auth.register.
  intros (e & db1 & He & Hrun)%bind_inr_inv.
  apply get_user_by_email_db in He as ->.
  case_bool_decide; [done|].
  apply bind_inr_inv in Hrun as (n & db2 & Hn & Hrun).
  apply get_user_by_username_db in Hn as ->.
  case_bool_decide; [done|].
  apply bind_inr_inv in Hrun as (user & db3 & Hcreate & Hrun).
  apply bind_inr_inv in Hrun as (ps & db4 & Hseed & Hret).
  unfold_M. injection Hret as <- <-. by exists db3, ps.
Qed.

(** X14.  Registration checks the email first and the username second:
    an email that a user already has is answered 400 "Email already
    registered", a free email with a taken username 400 "Username already
    taken", and in both cases nothing is written. *)
Theorem register_rejects_duplicates (str_lower get_password_hash : string → string)
    (data : UserCreate.t) (uuid1 uuid2 : string) (now : Z) (db : Db) :
  unique_usernames db → unique_emails db →
  ((∃ i u, users db !! i = Some u
      ∧ User.email u = str_lower (UserCreate.email data)) →
   run_request
     (routes_auth.register str_lower get_password_hash data uuid1 uuid2 now) db
   = (inl (HTTPException HTTP_400_BAD_REQUEST "Email already registered"), db))
  ∧ ((∀ i u, users db !! i = Some u →
        User.email u ≠ str_lower (UserCreate.email data)) →
     (∃ i u, users db !! i = Some u
        ∧ User.username u = str_lower (UserCreate.username data)) →
     run_request
       (routes_auth.register str_lower get_password_hash data uuid1 uuid2 now) db
     = (inl (HTTPException HTTP_400_BAD_REQUEST "Username already taken"), db)).
Proof.
  intros Hnames Hemails. split.
  - intros (i & u & Hu & Hemail).
    destruct (get_user_by_email_run str_lower (UserCreate.email data) db Hemails)
      as [[_ Hnone]|(j & v & _ & _ & Hrun)]; [by destruct (Hnone i u)|].
    unfold run_request, routes_auth.register.
    erewrite bind_run by exact Hrun.
    by rewrite bool_decide_true by by eexists.
  - intros Hfree (i & u & Hu & Hname).
    destruct (get_user_by_username_run str_lower (UserCreate.username data) db Hnames)
      as [[_ Hnone]|(j & v & _ & _ & Hrun)]; [by destruct (Hnone i u)|].
    unfold run_request, routes_auth.register.
    erewrite bind_run by by apply get_user_by_email_none.
    rewrite bool_decide_false by (by intros [??]).
    erewrite bind_run by exact Hrun.
    by rewrite bool_decide_true by by eexists.
Qed.

Lemma register_rejects_duplicates_witness :
  run_request
    (routes_auth.register ascii_lower sample_get_password_hash
       (UserCreate.mk "new@example.com" "ALICE" "password") "u3" "pr3" 7)
    sample_db
  = (inl (HTTPException HTTP_400_BAD_REQUEST "Username already taken"), sample_db).
Proof.
  apply (register_rejects_duplicates ascii_lower sample_get_password_hash
           (UserCreate.mk "new@example.com" "ALICE" "password") "u3" "pr3" 7
           sample_db sample_db_unique_usernames sample_db_unique_emails).
  - intros i u Hu.
    destruct (decide (i = "u1")) as [->|Hu1];
      [vm_compute in Hu; injection Hu as <-; by_computation|].
    destruct (decide (i = "u2")) as [->|Hu2];
      [vm_compute in Hu; injection Hu as <-; by_computation|].
    exfalso. revert Hu. unfold sample_db. simpl.
    rewrite lookup_insert_ne by done. rewrite lookup_insert_ne by done.
    by rewrite lookup_empty.
  - exists "u1", (User.mk "alice@example.com" "alice" "h1" 0).
    split; reflexivity.
Defined.

(** X15.  Registration succeeds on a store where the email and the
    username (case-folded) are free, the two generated ids are free and
    no project uses an id of the seed catalog: it stores the user, a
    private profile with 0 XP at level 1, and the ten catalog projects
    for that user, and leaves every other row as it was. *)
Theorem register_succeeds (str_lower get_password_hash : string → string)
    (data : UserCreate.t) (uuid1 uuid2 : string) (now : Z) (db : Db) :
  users db !! uuid1 = None →
  (∀ i u, users db !! i = Some u →
     User.email u ≠ str_lower (UserCreate.email data)
     ∧ User.username u ≠ str_lower (UserCreate.username data)) →
  user_profiles db !! uuid2 = None →
  (∀ i p, user_profiles db !! i = Some p → UserProfile.user_id p ≠ uuid1) →
  (∀ i, i ∈ catalog_ids → projects db !! i = None) →
  ∃ user db',
    routes_auth.register str_lower get_password_hash data uuid1 uuid2 now db
    = inr ((uuid1, user), db')
    ∧ user = User.mk (str_lower (UserCreate.email data))
               (str_lower (UserCreate.username data))
               (get_password_hash (UserCreate.password data)) now
    ∧ users db' = <[uuid1 := user]> (users db)
    ∧ user_profiles db' = <[uuid2 := initial_profile uuid1]> (user_profiles db)
    ∧ work_sessions db' = work_sessions db
    ∧ (∀ i, i ∈ catalog_ids →
         ∃ p, projects db' !! i = Some p ∧ Project.user_id p = uuid1)
    ∧ (∀ i, i ∉ catalog_ids → projects db' !! i = projects db !! i).
Proof.
  intros Hid Hcols Hpid Hpcol Hfree.
  pose proof (create_user_run str_lower get_password_hash data uuid1 uuid2 now db
                Hid Hcols Hpid Hpcol) as Hcreate. cbn zeta in Hcreate.
  set (user := User.mk _ _ _ _) in *.
  set (db1 := set_user_profiles _ _) in *.
  destruct (seed_projects_succeeds INITIAL_DATASET uuid1 now db1)
    as (ps & db' & Hseed).
  { apply (bool_decide_unpack _). by_computation. }
  { apply (bool_decide_unpack _). by_computation. }
  { intros sd Hsd. apply Hfree. by apply list_elem_of_fmap_2. }
  assert (seed_initial_projects uuid1 now db1 = inr (ps, db')) as Hrun.
  { unfold seed_initial_projects. erewrite bind_run by exact Hseed. reflexivity. }
  destruct (seed_initial_projects_rows _ _ _ _ _ Hrun) as (_ & Hrows & Hothers).
  destruct (seed_projects_inv _ _ _ _ _ _ Hseed)
    as (_ & _ & _ & _ & Husers & Hprofiles & Hsessions).
  exists user, db'. split_and!; try done.
  - unfold routes_auth.register.
    erewrite bind_run
      by (apply get_user_by_email_none; intros i u Hu; exact (proj1 (Hcols i u Hu))).
    rewrite bool_decide_false by (by intros [??]).
    erewrite bind_run
      by (apply get_user_by_username_none; intros i u Hu;
          exact (proj2 (Hcols i u Hu))).
    rewrite bool_decide_false by (by intros [??]).
    erewrite bind_run by exact Hcreate. cbn beta iota.
    erewrite bind_run by exact Hrun. reflexivity.
  - intros i [sd [-> Hsd]]%list_elem_of_fmap.
    destruct (Hrows sd Hsd) as (st & _ & Hp). by eexists.
Qed.

Lemma register_succeeds_witness :
  ∃ user db',
    routes_auth.register ascii_lower sample_get_password_hash sample_user_create
      "u3" "pr3" 7 sample_db
    = inr (("u3", user), db')
    ∧ User.username user = "carol"
    ∧ (∃ p, projects db' !! "p4_1" = Some p ∧ Project.user_id p = "u3").
Proof.
  destruct (register_succeeds ascii_lower sample_get_password_hash
              sample_user_create "u3" "pr3" 7 sample_db)
    as (user & db' & Hrun & -> & _ & _ & _ & Hcatalog & _).
  - reflexivity.
  - intros i u Hu.
    destruct (decide (i = "u1")) as [->|Hu1];
      [vm_compute in Hu; injection Hu as <-; split; by_computation|].
    destruct (decide (i = "u2")) as [->|Hu2];
      [vm_compute in Hu; injection Hu as <-; split; by_computation|].
    exfalso. revert Hu. unfold sample_db. simpl.
    rewrite lookup_insert_ne by done. rewrite lookup_insert_ne by done.
    by rewrite lookup_empty.
  - reflexivity.
  - intros i p Hp.
    destruct (decide (i = "pr1")) as [->|Hp1];
      [vm_compute in Hp; injection Hp as <-; by_computation|].
    destruct (decide (i = "pr2")) as [->|Hp2];
      [vm_compute in Hp; injection Hp as <-; by_computation|].
    exfalso. revert Hp. unfold sample_db. simpl.
    rewrite lookup_insert_ne by done. rewrite lookup_insert_ne by done.
    by rewrite lookup_empty.
  - intros i Hi. rewrite catalog_ids_eq in Hi.
    repeat (apply elem_of_cons in Hi as [->|Hi]; [reflexivity|]).
    inversion Hi.
  - eexists _, db'. split; [exact Hrun|]. split; [reflexivity|].
    apply Hcatalog. rewrite catalog_ids_eq.
    apply (bool_decide_unpack _). by_computation.
Defined.

(** [authenticate_user] once the lookup by username has found a user. *)
Lemma authenticate_user_by_username str_lower verify_password username password
    db i u :
  get_user_by_username str_lower username db = inr (Some (i, u), db) →
  authenticate_user str_lower verify_password username password db
  = inr (if verify_password password (User.hashed_password u)
         then Some (i, u) else None, db).
Proof.
  intros Hrun. unfold authenticate_user.
  erewrite bind_run by exact Hrun.
  rewrite bool_decide_true by by eexists.
  unfold_M. by destruct (verify_password _ _).
Qed.

(** ... and once it has found none. *)
Lemma authenticate_user_by_email str_lower verify_password username password
    db r :
  get_user_by_username str_lower username db = inr (None, db) →
  get_user_by_email str_lower username db = inr (r, db) →
  authenticate_user str_lower verify_password username password db
  = inr (match r with
         | Some (i, u) =>
             if verify_password password (User.hashed_password u)
             then Some (i, u) else None
         | None => None
         end, db).
Proof.
  intros Hname Hemail. unfold authenticate_user.
  erewrite bind_run by exact Hname.
  rewrite bool_decide_false by (by intros [??]).
  erewrite bind_run by exact Hemail.
  destruct r as [[i u]|]; [|done].
  unfold_M. by destruct (verify_password _ _).
Qed.

(** X16.  Authentication reads and never writes.  The login name is tried
    as a username first and as an email only if no user has that username;
    the user found is returned only if the password verifies against the
    stored hash, and nobody is returned when the name matches no user. *)
Theorem authenticate_user_spec (str_lower : string → string)
    (verify_password : string → string → bool) (db : Db)
    (username password : string) :
  unique_usernames db → unique_emails db →
  ∃ r, authenticate_user str_lower verify_password username password db
       = inr (r, db)
    ∧ (∀ i u, r = Some (i, u) →
         users db !! i = Some u
         ∧ verify_password password (User.hashed_password u) = true
         ∧ (User.username u = str_lower username
            ∨ User.email u = str_lower username))
    ∧ (∀ i u, users db !! i = Some u → User.username u = str_lower username →
         r = if verify_password password (User.hashed_password u)
             then Some (i, u) else None)
    ∧ (∀ i u, users db !! i = Some u → User.email u = str_lower username →
         (∀ j v, users db !! j = Some v → User.username v ≠ str_lower username) →
         r = if verify_password password (User.hashed_password u)
             then Some (i, u) else None)
    ∧ ((∀ i u, users db !! i = Some u →
          User.username u ≠ str_lower username
          ∧ User.email u ≠ str_lower username) →
       r = None).
Proof.
  intros Hnames Hemails.
  destruct (get_user_by_username_run str_lower username db Hnames)
    as [[Hrun Hnone]|(i & u & Hu & Hname & Hrun)].
  - destruct (get_user_by_email_run str_lower username db Hemails)
      as [[Hrun' Hnone']|(i & u & Hu & Hemail & Hrun')].
    + eexists. split; [by eapply authenticate_user_by_email|]. simpl.
      split_and!; try done.
      * intros j v Hv Hname. by destruct (Hnone j v).
      * intros j v Hv Hemail. by destruct (Hnone' j v).
    + eexists. split; [by eapply authenticate_user_by_email|]. simpl.
      split_and!.
      * intros j v. destruct (verify_password _ _) eqn:Hpw; [|done].
        intros [= <- <-]. split_and!; [done|done|by right].
      * intros j v Hv Hname. by destruct (Hnone j v).
      * intros j v Hv Hemail' _.
        assert (j = i) as -> by (eapply Hemails; [done|done|congruence]).
        by replace v with u by congruence.
      * intros Hno. by destruct (Hno i u Hu) as [_ []].
  - eexists. split; [by eapply authenticate_user_by_username|].
    split_and!.
    + intros j v. destruct (verify_password _ _) eqn:Hpw; [|done].
      intros [= <- <-]. split_and!; [done|done|by left].
    + intros j v Hv Hname'.
      assert (j = i) as -> by (eapply Hnames; [done|done|congruence]).
      by replace v with u by congruence.
    + intros j v Hv Hemail Hnone. by destruct (Hnone i u).
    + intros Hno. by destruct (Hno i u Hu) as [[] _].
Qed.

Lemma authenticate_user_spec_witness :
  authenticate_user ascii_lower (λ password hashed, bool_decide (hashed = "h1"))
    "Alice@Example.com" "pw" sample_db
  = inr (Some ("u1", User.mk "alice@example.com" "alice" "h1" 0), sample_db).
Proof.
  destruct (authenticate_user_spec ascii_lower
              (λ password hashed, bool_decide (hashed = "h1")) sample_db
              "Alice@Example.com" "pw"
              sample_db_unique_usernames sample_db_unique_emails)
    as (r & Hrun & _ & _ & Hemail & _).
  rewrite Hrun. f_equal. f_equal.
  apply (Hemail "u1" (User.mk "alice@example.com" "alice" "h1" 0));
    [reflexivity|reflexivity|].
  intros j v Hv.
  destruct (decide (j = "u1")) as [->|Hu1];
    [vm_compute in Hv; injection Hv as <-; by_computation|].
  destruct (decide (j = "u2")) as [->|Hu2];
    [vm_compute in Hv; injection Hv as <-; by_computation|].
  exfalso. revert Hv. unfold sample_db. simpl.
  rewrite lookup_insert_ne by done. rewrite lookup_insert_ne by done.
  by rewrite lookup_empty.
Defined.

(** X17.  Round trip of an account: after a registration has returned,
    logging in with the registered username and password gives a token for
    the new user's id, a password that does not verify is answered 401,
    the new id reads back the registered user, and its profile is the
    initial one (0 XP, level 1, no badge, private).  The unique constraints
    still hold. *)
Theorem register_then_login (str_lower get_password_hash : string → string)
    (verify_password : string → string → bool)
    (create_access_token : string → string)
    (data : UserCreate.t) (uuid1 uuid2 : string) (now : Z)
    (db : Db) (u : string * User.t) (db' : Db) :
  unique_usernames db → unique_profile_user_ids db →
  routes_auth.register str_lower get_password_hash data uuid1 uuid2 now db
  = inr (u, db') →
  u.1 = uuid1
  ∧ User.hashed_password u.2 = get_password_hash (UserCreate.password data)
  ∧ routes_auth.get_current_user uuid1 db' = inr (u, db')
  ∧ routes_profile.get_profile uuid1 db'
    = inr ((uuid2, initial_profile uuid1), db')
  ∧ (∀ password,
       routes_auth.login str_lower verify_password create_access_token
         (UserCreate.username data) password db'
       = if verify_password password (User.hashed_password u.2)
         then inr ({| access_token := create_access_token uuid1;
                      token_type := "bearer" |}, db')
         else inl (HTTPException HTTP_401_UNAUTHORIZED
                     "Incorrect username or password"))
  ∧ unique_usernames db' ∧ unique_profile_user_ids db'.
Proof.
  intros Hnames Hprofiles Hreg.
  apply register_inv in Hreg as (db1 & ps & Hcreate & Hseed).
  pose proof (create_user_keeps_constraints _ _ _ _ _ _ _ _ _
                Hnames Hprofiles Hcreate) as [Hnames1 Hprofiles1].
  apply create_user_inv in Hcreate as [-> ->]. simpl in Hseed.
  apply seed_initial_projects_inv, seed_projects_inv in Hseed
    as (_ & _ & _ & _ & Husers & Huser_profiles & _).
  set (user := User.mk _ _ _ _) in *.
  assert (unique_usernames db') as Hnames'.
  { intros i j a b. rewrite Husers. apply Hnames1. }
  assert (unique_profile_user_ids db') as Hprofiles'.
  { intros i j a b. rewrite Huser_profiles. apply Hprofiles1. }
  assert (users db' !! uuid1 = Some user) as Hu
    by (rewrite Husers; simpl; apply lookup_insert_eq).
  assert (user_profiles db' !! uuid2 = Some (initial_profile uuid1)) as Hp
    by (rewrite Huser_profiles; simpl; apply lookup_insert_eq).
  split_and!; try done.
  - unfold routes_auth.get_current_user, get_user_by_id. unfold_M.
    by rewrite Hu.
  - unfold routes_profile.get_profile.
    destruct (get_profile_by_user_id_run uuid1 db' Hprofiles')
      as [[_ Hnone]|(k & p & Hk & Hku & Hrun)];
      [by destruct (Hnone uuid2 (initial_profile uuid1))|].
    assert (k = uuid2) as -> by (eapply Hprofiles'; [done|done|by rewrite Hku]).
    assert (p = initial_profile uuid1) as -> by congruence.
    by erewrite bind_run by exact Hrun.
  - intros password. unfold routes_auth.login.
    destruct (get_user_by_username_run str_lower (UserCreate.username data) db'
                Hnames') as [[_ Hnone]|(k & v & Hk & Hkn & Hrun)];
      [by destruct (Hnone uuid1 user)|].
    assert (k = uuid1) as -> by (eapply Hnames'; [done|done|by rewrite Hkn]).
    assert (v = user) as -> by congruence.
    erewrite bind_run by by eapply authenticate_user_by_username.
    simpl. by destruct (verify_password _ _).
Qed.

Lemma register_then_login_witness :
  ∃ u db',
    routes_auth.register ascii_lower sample_get_password_hash sample_user_create
      "u3" "pr3" 7 empty_db
    = inr (u, db')
    ∧ routes_auth.login ascii_lower sample_verify_password (λ id, "token:" +:+ id)
        "Carol" "correct horse" db'
      = inr ({| access_token := "token:u3"; token_type := "bearer" |}, db')
    ∧ routes_auth.login ascii_lower sample_verify_password (λ id, "token:" +:+ id)
        "Carol" "wrong" db'
      = inl (HTTPException HTTP_401_UNAUTHORIZED "Incorrect username or password").
Proof.
  destruct (routes_auth.register ascii_lower sample_get_password_hash
              sample_user_create "u3" "pr3" 7 empty_db) as [e|[u db']] eqn:Hreg;
    [vm_compute in Hreg; discriminate Hreg|].
  exists u, db'. split; [reflexivity|].
  destruct (register_then_login ascii_lower sample_get_password_hash
              sample_verify_password (λ id, "token:" +:+ id)
              sample_user_create "u3" "pr3" 7 empty_db u db'
              (proj1 empty_db_constraints) (proj2 empty_db_constraints) Hreg)
    as (_ & Hhash & _ & _ & Hlogin & _).
  split.
  - etrans; [exact (Hlogin "correct horse")|]. rewrite Hhash. reflexivity.
  - etrans; [exact (Hlogin "wrong")|]. rewrite Hhash. reflexivity.
Defined.

(** ** Profiles *)

Lemma get_profile_by_user_id_inv uid db r db' :
  get_profile_by_user_id uid db = inr (r, db') →
  db' = db
  ∧ ∀ i p, r = Some (i, p) →
      user_profiles db !! i = Some p ∧ UserProfile.user_id p = uid.
Proof.
  unfold get_profile_by_user_id. unfold_M.
  destruct (filter _ _) as [|[k q] [|??]] eqn:Hrows; simpl; [| |done].
  - intros [= <- <-]. by split.
  - intros [= <- <-]. split; [done|]. intros i p [= -> ->].
    assert ((i, p) ∈ filter (λ r : string * UserProfile.t,
                               UserProfile.user_id r.2 = uid)
                            (map_to_list (user_profiles db))) as Hin
      by (rewrite Hrows; left).
    apply list_elem_of_filter in Hin as [Hu Hin].
    by apply elem_of_map_to_list in Hin.
Qed.



Lemma validate_Some body data :
  UserProfileUpdate.validate body = Some data →
  data = body
  ∧ (∀ v, UserProfileUpdate.xp body = Some v → 0 ≤ v)
  ∧ (∀ v, UserProfileUpdate.level body = Some v → 1 ≤ v).
Proof.
  unfold UserProfileUpdate.validate.
  destruct (from_option _ _ _ && from_option _ _ _) eqn:Hok; [|done].
  intros [= <-]. apply andb_true_iff in Hok as [Hxp Hlevel].
  split; [done|]. split.
  - intros v Hv. rewrite Hv in Hxp. simpl in Hxp. lia.
  - intros v Hv. rewrite Hv in Hlevel. simpl in Hlevel. lia.
Qed.

Lemma profile_bounds_alter db id f :
  profile_bounds db →
  (∀ p, user_profiles db !! id = Some p →
     0 ≤ UserProfile.xp p → 1 ≤ UserProfile.level p →
     0 ≤ UserProfile.xp (f p) ∧ 1 ≤ UserProfile.level (f p)) →
  profile_bounds (set_user_profiles (alter f id) db).
Proof.
  intros Hb Hf i p. simpl. rewrite lookup_alter. case_decide as Hi.
  - subst i. destruct (user_profiles db !! id) as [q|] eqn:Hq; [|done].
    intros [= <-]. destruct (Hb id q Hq). by apply Hf.
  - apply Hb.
Qed.

(** X18.  The bounds of the request schemas are an invariant of the
    store: if every profile has a non-negative XP and a level of at least
    1, this still holds after any profile update, XP grant or registration
    that returns. *)
Theorem profile_bounds_invariant (db : Db) :
  profile_bounds db →
  (∀ body uid r db',
     routes_profile.update_profile body uid db = inr (r, db') →
     profile_bounds db')
  ∧ (∀ amount uid r db',
       routes_profile.add_xp amount uid db = inr (r, db') → profile_bounds db')
  ∧ (∀ str_lower get_password_hash data uuid1 uuid2 now u db',
       routes_auth.register str_lower get_password_hash data uuid1 uuid2 now db
       = inr (u, db') →
       profile_bounds db').
Proof.
  intros Hb. split_and!.
  - intros body uid r db'. unfold routes_profile.update_profile.
    destruct (UserProfileUpdate.validate body) as [data|] eqn:Hvalid; [|done].
    apply validate_Some in Hvalid as (-> & Hxp & Hlevel).
    intros (r0 & db1 & Hrun & Hret)%bind_inr_inv.
    unfold update_profile in Hrun.
    apply bind_inr_inv in Hrun as (found & db0 & Hfound & Hrun).
    apply get_profile_by_user_id_inv in Hfound as [-> _].
    destruct found as [[id profile]|].
    + unfold_M. injection Hrun as <- <-. injection Hret as _ <-.
      apply profile_bounds_alter; [done|]. intros p _ Hp0 Hp1.
      unfold UserProfileUpdate.setattrs. simpl. split.
      * destruct (UserProfileUpdate.xp body) as [v|] eqn:Hv; simpl; [|done].
        by apply Hxp.
      * destruct (UserProfileUpdate.level body) as [v|] eqn:Hv; simpl; [|done].
        by apply Hlevel.
    + unfold_M. by injection Hrun as <- <-.
  - intros amount uid r db'. unfold routes_profile.add_xp, AddXPRequest.validate.
    destruct (Z.leb_spec 0 amount) as [Hamount|]; [|done]. simpl.
    intros (r0 & db1 & Hrun & Hret)%bind_inr_inv.
    unfold add_xp in Hrun.
    apply bind_inr_inv in Hrun as (found & db0 & Hfound & Hrun).
    apply get_profile_by_user_id_inv in Hfound as [-> Hfound].
    destruct found as [[id profile]|].
    + destruct (Hfound id profile eq_refl) as [Hid _].
      unfold_M. injection Hrun as <- <-. injection Hret as _ <-.
      apply profile_bounds_alter; [done|]. intros p Hp Hp0 Hp1. simpl.
      destruct (Hb id profile Hid). lia.
    + unfold_M. by injection Hrun as <- <-.
  - intros str_lower get_password_hash data uuid1 uuid2 now u db' Hreg.
    apply register_inv in Hreg as (db1 & ps & Hcreate & Hseed).
    apply create_user_inv in Hcreate as [-> ->]. simpl in Hseed.
    apply seed_initial_projects_inv, seed_projects_inv in Hseed
      as (_ & _ & _ & _ & _ & Huser_profiles & _).
    intros i p. rewrite Huser_profiles. simpl. rewrite lookup_insert.
    case_decide; [|apply Hb]. intros [= <-]. simpl. lia.
Qed.

Lemma sample_db_profile_bounds : profile_bounds sample_db.
Proof.
  intros i p Hp.
  destruct (decide (i = "pr1")) as [->|Hp1];
    [vm_compute in Hp; injection Hp as <-; split; by_computation|].
  destruct (decide (i = "pr2")) as [->|Hp2];
    [vm_compute in Hp; injection Hp as <-; split; by_computation|].
  exfalso. revert Hp. unfold sample_db. simpl.
  rewrite lookup_insert_ne by done. rewrite lookup_insert_ne by done.
  by rewrite lookup_empty.
Defined.

Lemma profile_bounds_invariant_witness :
  ∃ r db', routes_profile.add_xp 30 "u1" sample_db = inr (r, db')
    ∧ profile_bounds db'.
Proof.
  destruct (routes_profile.add_xp 30 "u1" sample_db) as [e|[r db']] eqn:Hrun;
    [vm_compute in Hrun; discriminate Hrun|].
  exists r, db'. split; [reflexivity|].
  destruct (profile_bounds_invariant sample_db sample_db_profile_bounds)
    as (_ & Hadd & _).
  exact (Hadd 30 "u1" r db' Hrun).
Defined.

Lemma get_profile_by_user_id_none uid db :
  (∀ i p, user_profiles db !! i = Some p → UserProfile.user_id p ≠ uid) →
  get_profile_by_user_id uid db = inr (None, db).
Proof.
  intros Hnone. unfold get_profile_by_user_id. unfold_M.
  rewrite filter_no_row; [done|]. intros i p Hp. simpl. exact (Hnone i p Hp).
Qed.






(** ** Statistics *)

(** No level from 0 to 10000 is too large for a float. *)
Lemma float_of_int_below :
  all_below 10001
    (λ level, match float_of_int level with S754_infinity _ => false | _ => true end)
  = true.
Proof. vm_cast_no_check (eq_refl true). Qed.

Lemma level_xp_run pow level :
  0 ≤ level ≤ 10000 →
  pow (float_of_int level) float_1_5 = SFsqrt prec emax (exact_int (level ^ 3)) →
  ∃ n, is_floor_of_curve level n
    ∧ ∀ db, routes_profile.level_xp pow level db = inr (n, db).
Proof.
  intros Hlevel Hpow.
  pose proof (all_below_spec _ _ curve_ok_below level ltac:(lia)) as Hok.
  pose proof (all_below_spec _ _ float_of_int_below level ltac:(lia)) as Hfin.
  unfold curve_ok in Hok. unfold routes_profile.level_xp, get_next_level_xp.
  rewrite Hpow. fold (curve_at level).
  destruct (curve_at level) as [n|]; [|done].
  apply andb_true_iff in Hok as [[H0 H1]%andb_true_iff H2].
  apply Z.leb_le in H0, H1. apply Z.ltb_lt in H2.
  exists n. split; [done|]. intros db.
  rewrite bool_decide_false by lia.
  cbv beta in Hfin. revert Hfin. destruct (float_of_int level); intros Hfin;
    first [reflexivity|discriminate Hfin].
Qed.

(** X21.  The statistics are read-only and count the caller's projects
    only: the total is the number of projects of the caller and the
    completed count the number of those that are done, so it never exceeds
    the total.  The rank title is that of the rank for the profile's XP,
    and, at a level from 1 to 10000 where [pow] is correctly rounded, the
    two level bounds are the floors of the level curve at the level and at
    the level below (0 at level 1), the lower one not above the upper one.
    Without a profile the answer is 404. *)
Theorem get_stats_spec (pow : float → float → float) (db : Db) (uid : string) :
  (∀ id profile,
     unique_profile_user_ids db →
     user_profiles db !! id = Some profile → UserProfile.user_id profile = uid →
     1 ≤ UserProfile.level profile ≤ 10000 →
     (∀ l, l = UserProfile.level profile ∨ l = UserProfile.level profile - 1 →
        pow (float_of_int l) float_1_5 = SFsqrt prec emax (exact_int (l ^ 3))) →
     ∃ stats, routes_profile.get_stats pow uid db = inr (stats, db)
       ∧ UserStats.xp stats = UserProfile.xp profile
       ∧ UserStats.level stats = UserProfile.level profile
       ∧ UserStats.total_projects stats = Z.of_nat (length (projects_of uid db))
       ∧ UserStats.completed_projects stats
         = Z.of_nat (length (filter (λ r, Project.status r.2 = DONE)
                                    (projects_of uid db)))
       ∧ 0 ≤ UserStats.completed_projects stats ≤ UserStats.total_projects stats
       ∧ UserStats.rank_title stats
         = Rank.title (get_rank_for_xp (UserProfile.xp profile))
       ∧ is_floor_of_curve (UserProfile.level profile)
           (UserStats.next_level_xp stats)
       ∧ is_floor_of_curve (UserProfile.level profile - 1)
           (UserStats.current_level_xp stats)
       ∧ (UserProfile.level profile = 1 → UserStats.current_level_xp stats = 0)
       ∧ UserStats.current_level_xp stats ≤ UserStats.next_level_xp stats)
  ∧ ((∀ i p, user_profiles db !! i = Some p → UserProfile.user_id p ≠ uid) →
     routes_profile.get_stats pow uid db
     = inl (HTTPException HTTP_404_NOT_FOUND "Profile not found")).
Proof.
  split.
  - intros id profile Huniq Hid Hu Hlevel Hpow.
    destruct (get_profile_by_user_id_run uid db Huniq)
      as [[_ Hnone]|(k & p & Hk & Hku & Hrun)]; [by destruct (Hnone id profile)|].
    assert (k = id) as -> by (eapply Huniq; [done|done|congruence]).
    assert (p = profile) as -> by congruence.
    destruct (get_projects_by_user_run uid db) as (l & Hl & Hperm).
    destruct (level_xp_run pow (UserProfile.level profile))
      as (n & Hn & Hnext); [lia|apply Hpow; by left|].
    assert (∃ c, is_floor_of_curve (UserProfile.level profile - 1) c
              ∧ (UserProfile.level profile = 1 → c = 0)
              ∧ ∀ db0,
                  (if bool_decide (1 < UserProfile.level profile)
                   then routes_profile.level_xp pow (UserProfile.level profile - 1)
                   else mret 0) db0 = inr (c, db0)) as (c & Hc & Hc1 & Hcurrent).
    { case_bool_decide as Hgt.
      - destruct (level_xp_run pow (UserProfile.level profile - 1))
          as (c & Hc & Hcrun); [lia|apply Hpow; by right|].
        exists c. split; [done|]. split; [lia|done].
      - exists 0. assert (UserProfile.level profile = 1) as -> by lia.
        split; [unfold is_floor_of_curve; simpl; lia|]. by split. }
    unfold routes_profile.get_stats.
    erewrite bind_run by exact Hrun. cbn beta iota.
    erewrite bind_run by exact Hl. cbn beta zeta.
    erewrite bind_run by apply Hnext.
    erewrite bind_run by apply Hcurrent.
    eexists. split; [reflexivity|]. simpl.
    assert (length (filter (λ r : string * Project.t, Project.status r.2 = DONE) l)
            ≤ length l)%nat as Hle by apply length_filter.
    split_and!; try done.
    + by rewrite Hperm.
    + by rewrite Hperm.
    + lia.
    + lia.
    + unfold is_floor_of_curve in *.
      assert ((UserProfile.level profile - 1) ^ 3 ≤ UserProfile.level profile ^ 3)
        by (apply Z.pow_le_mono_l; lia).
      nia.
  - intros Hnone. apply get_profile_by_user_id_none in Hnone.
    unfold routes_profile.get_stats. by erewrite bind_run by exact Hnone.
Qed.

Lemma get_stats_spec_witness :
  ∃ stats, routes_profile.get_stats sample_pow "u1" sample_db = inr (stats, sample_db)
    ∧ UserStats.total_projects stats = 7
    ∧ UserStats.completed_projects stats = 1
    ∧ UserStats.rank_title stats = "Script Kiddie"
    ∧ UserStats.next_level_xp stats = 282
    ∧ UserStats.current_level_xp stats = 100.
Proof.
  destruct (get_stats_spec sample_pow sample_db "u1") as (Hstats & _).
  destruct (Hstats "pr1"
              (UserProfile.mk "u1" 120 2 ["b_first_step"] None None true None)
              sample_db_unique_profile_user_ids eq_refl eq_refl)
    as (stats & Hrun & _ & _ & Htotal & Hcompleted & _ & Hrank & Hnext & Hcurrent & _).
  - simpl. lia.
  - intros l [->| ->]; vm_compute; reflexivity.
  - exists stats. split; [exact Hrun|].
    split; [rewrite Htotal; vm_compute; reflexivity|].
    split; [rewrite Hcompleted; vm_compute; reflexivity|].
    split; [rewrite Hrank; reflexivity|].
    split.
    + apply (is_floor_of_curve_unique 2); [exact Hnext|].
      unfold is_floor_of_curve. lia.
    + apply (is_floor_of_curve_unique 1); [exact Hcurrent|].
      unfold is_floor_of_curve. lia.
Defined.
